(** * Crisis detection engine of the Mental-ChatBot backend

    A shallow embedding of [src/backend/guardrailes/crisis_detector.py]:
    the three channel matchers, score fusion, the level classifier, the
    per-session tracker, the resource resolver and [assess_crisis_level].

    Modelling choices:
    - Python [str] is [string] (UTF-8 bytes).  Substring tests on UTF-8 bytes
      agree with substring tests on code points.
    - Python floats are exact rationals [Q]; the thresholds and weights of the
      source (0.3, 0.5, 0.4, 1.2, 0.5, 1.0, 2.0, 2.5, 3.0) become the
      corresponding fractions.
    - Python dicts whose order is observable (channel scores, the resource
      bundle) are association lists with Python's insert-or-overwrite-in-place
      update; the session map [self.session_history] is a [gmap].
    - [datetime.now()] is an input [now] of the assessment.
    - A raised Python exception is the [Raise] branch of [Result]. *)

From Stdlib Require Import QArith Lqa ZArith Bool.
From stdpp Require Import gmap strings list.
From Stdlib Require Import String Ascii.

Open Scope string_scope.

(** ** Data model *)

Inductive CrisisType :=
  SUICIDE | SELF_HARM | VIOLENCE | SEVERE_DEPRESSION | PSYCHOSIS
| SUBSTANCE_ABUSE | EATING_DISORDER.

(** [CrisisType.value]. *)
Definition CrisisType_value (t : CrisisType) : string :=
  match t with
  | SUICIDE => "suicide"
  | SELF_HARM => "self_harm"
  | VIOLENCE => "violence"
  | SEVERE_DEPRESSION => "severe_depression"
  | PSYCHOSIS => "psychosis"
  | SUBSTANCE_ABUSE => "substance_abuse"
  | EATING_DISORDER => "eating_disorder"
  end.

Inductive CrisisLevel := LOW | MEDIUM | HIGH | CRITICAL.

(** [CrisisLevel.value]. *)
Definition CrisisLevel_value (l : CrisisLevel) : string :=
  match l with
  | LOW => "low" | MEDIUM => "medium" | HIGH => "high" | CRITICAL => "critical"
  end.

Definition CrisisLevel_eqb (a b : CrisisLevel) : bool :=
  match a, b with
  | LOW, LOW | MEDIUM, MEDIUM | HIGH, HIGH | CRITICAL, CRITICAL => true
  | _, _ => false
  end.

(** Exceptions the code can raise. *)
Inductive PyError := ReError (pattern : string).

Inductive Result (A : Type) := Ok (a : A) | Raise (e : PyError).
Arguments Ok {A} a.
Arguments Raise {A} e.

(** ** Python string operations *)

(** [str.lower] on one byte: ASCII letters are folded; the bytes of
    multi-byte UTF-8 sequences are left unchanged, which is what
    [str.lower] does on Arabic script (Arabic has no case). *)
Definition ascii_lower (c : ascii) : ascii :=
  let n := nat_of_ascii c in
  if (65 <=? n)%nat && (n <=? 90)%nat then ascii_of_nat (n + 32) else c.

Fixpoint str_lower (s : string) : string :=
  match s with
  | EmptyString => EmptyString
  | String c s' => String (ascii_lower c) (str_lower s')
  end.

Fixpoint str_prefix (p s : string) : bool :=
  match p, s with
  | EmptyString, _ => true
  | String c p', String d s' => Ascii.eqb c d && str_prefix p' s'
  | String _ _, EmptyString => false
  end.

(** Python's [p in s]. *)
Fixpoint str_contains (p s : string) : bool :=
  str_prefix p s ||
  match s with
  | EmptyString => false
  | String _ s' => str_contains p s'
  end.

Fixpoint str_drop (n : nat) (s : string) : string :=
  match n, s with
  | O, _ => s
  | S n', String _ s' => str_drop n' s'
  | S _, EmptyString => EmptyString
  end.

Definition str_mem (x : string) (l : list string) : bool :=
  existsb (String.eqb x) l.

(** ** Python dicts as association lists *)

Fixpoint dict_get {V} (d : list (string * V)) (k : string) : option V :=
  match d with
  | [] => None
  | (k', v) :: d' => if String.eqb k k' then Some v else dict_get d' k
  end.

(** [d[k] = v]: overwrite in place, or append a new key. *)
Fixpoint dict_set {V} (d : list (string * V)) (k : string) (v : V)
  : list (string * V) :=
  match d with
  | [] => [(k, v)]
  | (k', v') :: d' =>
      if String.eqb k k' then (k, v) :: d' else (k', v') :: dict_set d' k v
  end.

(** [d.update(e)]. *)
Definition dict_update {V} (d e : list (string * V)) : list (string * V) :=
  fold_left (fun acc kv => dict_set acc kv.1 kv.2) e d.

(** [d.get(k, 0)]. *)
Definition dict_get0 (d : list (string * Q)) (k : string) : Q :=
  match dict_get d k with Some v => v | None => 0 end.

(** [l[-n:]]. *)
Definition py_tail {A} (n : nat) (l : list A) : list A :=
  skipn (List.length l - n) l.


(** ** The fragment of Python's [re] used by the Pattern Table

    Every pattern of the table has the shape [(A1|...|An).*(B1|...|Bm)] with
    literal alternatives.  [re_compile] parses that shape; it returns [None]
    (Python raises [re.error]) on a malformed string such as an unterminated
    group.  [re.IGNORECASE] has no effect here: the alternatives are Arabic,
    which has no case, and the text is already lowercased. *)

Record Regex := { re_left : list string; re_right : list string }.

Definition re_meta (c : ascii) : bool :=
  existsb (Ascii.eqb c)
    ["("%char; ")"%char; "|"%char; "."%char; "*"%char; "+"%char; "?"%char;
     "["%char; "]"%char; "{"%char; "}"%char; "^"%char; "$"%char;
     ascii_of_nat 92].

(** Reads [alt1|...|altn)] after an opening parenthesis; returns the
    alternatives and what follows the closing parenthesis. *)
Fixpoint read_group (s : string) (cur : string) (acc : list string)
  : option (list string * string) :=
  match s with
  | EmptyString => None (* missing ), unterminated subpattern *)
  | String c s' =>
      if Ascii.eqb c ")" then
        if String.eqb cur "" then None else Some (List.rev (cur :: acc), s')
      else if Ascii.eqb c "|" then
        if String.eqb cur "" then None else read_group s' "" (cur :: acc)
      else if re_meta c then None
      else read_group s' (cur ++ String c "") acc
  end.

Definition re_compile (p : string) : option Regex :=
  match p with
  | String c p1 =>
      if Ascii.eqb c "(" then
        match read_group p1 "" [] with
        | Some (l, String d (String st (String o p2))) =>
            if Ascii.eqb d "." && Ascii.eqb st "*" && Ascii.eqb o "(" then
              match read_group p2 "" [] with
              | Some (r, EmptyString) => Some {| re_left := l; re_right := r |}
              | _ => None
              end
            else None
        | _ => None
        end
      else None
  | EmptyString => None
  end.

(** Number of characters [.] may consume: up to the first newline. *)
Fixpoint line_len (s : string) : nat :=
  match s with
  | EmptyString => O
  | String c s' => if Ascii.eqb c (ascii_of_nat 10) then O else S (line_len s')
  end.

Fixpoint first_alt (alts : list string) (s : string) : option string :=
  match alts with
  | [] => None
  | a :: alts' => if str_prefix a s then Some a else first_alt alts' s
  end.

(** [.*(B1|...|Bm)] on [rest], [.*] having consumed [k] characters: the
    greedy star tries the longest [k] first and backtracks one character at
    a time.  Returns the number of characters matched. *)
Fixpoint match_tail (r : list string) (rest : string) (k : nat) : option nat :=
  match first_alt r (str_drop k rest) with
  | Some b => Some (k + String.length b)
  | None => match k with O => None | S k' => match_tail r rest k' end
  end.

(** A match starting at the front of [s]: the alternatives of the first
    group are tried in order. *)
Fixpoint match_head (l r : list string) (s : string) : option nat :=
  match l with
  | [] => None
  | a :: l' =>
      if str_prefix a s then
        let rest := str_drop (String.length a) s in
        match match_tail r rest (line_len rest) with
        | Some n => Some (String.length a + n)
        | None => match_head l' r s
        end
      else match_head l' r s
  end.

(** [len(re.findall(rx, s))]: leftmost matches, the search resuming where
    the previous match ended. *)
Fixpoint findall_from (rx : Regex) (fuel : nat) (s : string) : nat :=
  match fuel with
  | O => O
  | S f =>
      match s with
      | EmptyString => O
      | String _ s' =>
          match match_head (re_left rx) (re_right rx) s with
          | Some n => S (findall_from rx f (str_drop n s))
          | None => findall_from rx f s'
          end
      end
  end.

Definition re_findall_count (rx : Regex) (s : string) : nat :=
  findall_from rx (String.length s) s.

(** ** The engine state *)

(** [self.emergency_resources]: a dict with the four fixed keys
    "emergency", "hospitals", "mental_health", "support". *)
Record EmergencyResources := {
  res_emergency : list (string * string);
  res_hospitals : list (string * string);
  res_mental_health : list (string * string);
  res_support : list (string * string) }.

Record SessionRecord := {
  rec_timestamp : Z;
  rec_score : Q;
  rec_types : list string }.

Record CrisisDetectionSystem := {
  crisis_keywords : list (CrisisType * list string);
  crisis_patterns : list (string * (CrisisType * Q));
  omani_crisis_expressions : list (CrisisType * list string);
  emergency_resources : EmergencyResources;
  session_history : gmap string (list SessionRecord) }.

Definition with_history (self : CrisisDetectionSystem)
  (h : gmap string (list SessionRecord)) : CrisisDetectionSystem :=
  {| crisis_keywords := crisis_keywords self;
     crisis_patterns := crisis_patterns self;
     omani_crisis_expressions := omani_crisis_expressions self;
     emergency_resources := emergency_resources self;
     session_history := h |}.

(** [_build_crisis_keywords]: the Lexicon Table, in the dict's insertion order. *)
Definition build_crisis_keywords : list (CrisisType * list string) :=
  [(SUICIDE,
     ["أريد أن أموت";
      "بدي أموت";
      "نفسي أموت";
      "أقتل نفسي";
      "سأقتل نفسي";
      "أنتحر";
      "انتحار";
      "أنهي حياتي";
      "لا أريد أن أعيش";
      "مللت من الحياة";
      "الموت أحسن";
      "أستحق الموت";
      "العالم أحسن بدوني";
      "أذهب للأبد";
      "لا فائدة من وجودي";
      "محد يحتاجني";
      "عبء على الجميع";
      "أرتاح لو مت";
      "أتمنى أنام ولا أصحى";
      "خلصت من الدنيا";
      "نهاية المطاف";
      "آخر خيار";
      "حل نهائي";
      "راحة أبدية";
      "أخطط لـ";
      "قررت أن";
      "لن أكون هنا";
      "وداعاً للجميع";
      "آخر رسالة";
      "توديع";
      "وصية";
      "انتهى كل شيء"]);
   (SELF_HARM,
     ["أؤذي نفسي";
      "أجرح نفسي";
      "أقطع نفسي";
      "أضرب نفسي";
      "أحرق نفسي";
      "أعذب نفسي";
      "أكسر";
      "أخدش";
      "سكين";
      "شفرة";
      "حرق";
      "ضرب";
      "عض";
      "خدش";
      "أستحق الألم";
      "أعاقب نفسي";
      "أستحق العذاب";
      "ألم جسدي";
      "أشعر بالألم";
      "دم";
      "جروح";
      "ندوب";
      "أريد أن أشعر بشيء";
      "ألم حقيقي";
      "ألم أستطيع رؤيته";
      "طريقة للتحكم";
      "الألم الوحيد";
      "أتحكم في ألمي"]);
   (VIOLENCE,
     ["سأقتل";
      "أريد أن أؤذي";
      "سأضرب";
      "سأدمر";
      "أنتقم";
      "سأؤذي من";
      "أقتله";
      "أكسر رأسه";
      "أفجر";
      "أحرق";
      "أدمر كل شيء";
      "أنهي الجميع";
      "لا أستطيع التحكم";
      "سأفقد السيطرة";
      "غضب شديد";
      "أعمى من الغضب";
      "سأفعل شيئاً سيئاً";
      "أفقد عقلي"]);
   (SEVERE_DEPRESSION,
     ["لا أمل";
      "لا فائدة";
      "مستحيل";
      "ميؤوس منه";
      "الظلام فقط";
      "لا ضوء";
      "نفق مظلم";
      "لا مخرج";
      "مسدود الأفق";
      "لا حل";
      "انتهى كل شيء";
      "لا قيمة لي";
      "فاشل";
      "عديم الفائدة";
      "لا أستحق";
      "أسوأ شخص";
      "لا أصلح لشيء";
      "عبء على الجميع";
      "وحيد تماماً";
      "محد يفهمني";
      "محد يحبني";
      "منبوذ";
      "لا أحد يهتم";
      "معزول";
      "منفرد";
      "وحش"]);
   (PSYCHOSIS,
     ["أسمع أصوات";
      "أرى أشياء";
      "يراقبونني";
      "يتجسسون";
      "مؤامرة ضدي";
      "يطاردونني";
      "صوت يقول لي";
      "أشياء غريبة";
      "لست حقيقي";
      "العالم ليس حقيقي";
      "أفكاري مختلطة";
      "لا أفهم نفسي";
      "كلام غير منطقي";
      "رسائل خفية";
      "معاني مخفية";
      "علامات"]);
   (SUBSTANCE_ABUSE,
     ["أفرط في";
      "إدمان";
      "مخدرات";
      "كحول";
      "حبوب";
      "لا أستطيع التوقف";
      "أحتاج المزيد";
      "انسحاب";
      "جرعة زائدة";
      "تسمم";
      "أعراض";
      "اعتماد"])].

(** [_build_crisis_patterns]: raw pattern strings with their type and weight,
    in the dict's insertion order.  The strings are stored uncompiled. *)
Definition build_crisis_patterns : list (string * (CrisisType * Q)) :=
  [("(أريد|بدي|نفسي).*(أموت|أقتل نفسي|أنتحر)", (SUICIDE, (9#10)));
   ("(سأقتل|راح أقتل).*(نفسي|روحي)", (SUICIDE, (19#20)));
   ("(لا أريد|ما بدي).*(أعيش|أكمل|أستمر)", (SUICIDE, (4#5)));
   ("(أؤذي|أجرح|أقطع).*(نفسي|روحي)", (SELF_HARM, (17#20)));
   ("(شفرة|سكين|حرق).*(نفس|جسم)", (SELF_HARM, (4#5)));
   ("(سأقتل|راح أقتل|أقتل).*(كل|جميع|الناس)", (VIOLENCE, (9#10)));
   ("(أؤذي|أضرب|أكسر).*(أحد|شخص|واحد)", (VIOLENCE, (7#10)));
   ("(لا أمل|لا فائدة|مستحيل).*(نهائياً|أبداً|تماماً)", (SEVERE_DEPRESSION, (7#10)));
   ("(عبء|فاشل|عديم).*(الجميع|الكل|الناس)", (SEVERE_DEPRESSION, (3#5)))].

(** [_build_omani_crisis_expressions]: the Dialect Table. *)
Definition build_omani_crisis_expressions : list (CrisisType * list string) :=
  [(SUICIDE,
     ["خلاص تعبت من الدنيا";
      "ما عد أقدر أكمل";
      "أرتاح لو رحت";
      "مللت من كل شي";
      "ما لي فايدة";
      "الموت أحسن لي";
      "خلصت من هالحياة"]);
   (SELF_HARM,
     ["أعذب روحي";
      "أوجع نفسي";
      "أضر بروحي";
      "أستاهل الألم";
      "ألم أحسه بجسمي"]);
   (SEVERE_DEPRESSION,
     ["محطم نفسياً واجد";
      "ضايق صدري مرة";
      "قلبي مكسور";
      "حالتي زينة ما هي";
      "نفسيتي في الأرض";
      "دايخ من الهموم"]);
   (VIOLENCE,
     ["راح أكسر كل شي";
      "أفجر فيهم";
      "أورجيهم";
      "أخليهم يندمون";
      "ما راح أسكت"])].

(** [_build_emergency_resources]. *)
Definition build_emergency_resources : EmergencyResources :=
  {|
     res_emergency :=
       [("general_emergency", "999");
        ("police", "999");
        ("ambulance", "999");
        ("fire", "999")];
     res_hospitals :=
       [("sultan_qaboos_hospital", "+968 24211411");
        ("royal_hospital", "+968 24599000");
        ("khoula_hospital", "+968 24560441");
        ("nizwa_hospital", "+968 25431800")];
     res_mental_health :=
       [("mental_health_hotline", "مكتوب قريباً");
        ("psychological_services", "وزارة الصحة - الخدمات النفسية");
        ("crisis_intervention", "قسم الطوارئ النفسية");
        ("social_services", "وزارة التنمية الاجتماعية")];
     res_support :=
       [("family_guidance", "مراكز الإرشاد الأسري");
        ("youth_centers", "مراكز الشباب");
        ("women_centers", "مراكز المرأة");
        ("community_centers", "المراكز المجتمعية")] |}.

Open Scope Q_scope.

(** [__init__], with the table returned by [_build_crisis_patterns] as a
    parameter.  It stores the pattern strings as they are: nothing here
    compiles a pattern, and construction cannot raise. *)
Definition CrisisDetectionSystem_init_with
  (patterns : list (string * (CrisisType * Q))) : Result CrisisDetectionSystem :=
  Ok {| crisis_keywords := build_crisis_keywords;
        crisis_patterns := patterns;
        omani_crisis_expressions := build_omani_crisis_expressions;
        emergency_resources := build_emergency_resources;
        session_history := ∅ |}.

Definition CrisisDetectionSystem_init : Result CrisisDetectionSystem :=
  CrisisDetectionSystem_init_with build_crisis_patterns.

(** ** Channel matchers *)

(** A channel's result dict: ["types"] and ["scores"].  The lists of
    matched strings (["keywords_found"], ...) are read by nothing
    downstream and are left out. *)
Record ChannelResult := {
  cr_types : list string;
  cr_scores : list (string * Q) }.

Definition empty_result : ChannelResult := {| cr_types := []; cr_scores := [] |}.

Definition Qlt_b (x y : Q) : bool := negb (Qle_bool y x).

(** The inner loop of [_check_crisis_keywords] and [_check_omani_expressions]:
    [score += step] for every entry found in [text]. *)
Definition entry_score (text : string) (entries : list string) (step : Q) : Q :=
  fold_left
    (fun score e => if str_contains (str_lower e) text then score + step else score)
    entries 0.

(** One step of the outer loop of both: a dict entry for the type when its
    [score > 0]. *)
Definition check_entries_step (text : string) (step : Q) (res : ChannelResult)
  (entry : CrisisType * list string) : ChannelResult :=
  let score := entry_score text entry.2 step in
  if Qlt_b 0 score then
    {| cr_types := (cr_types res ++ [CrisisType_value entry.1])%list;
       cr_scores := dict_set (cr_scores res) (CrisisType_value entry.1) score |}
  else res.

Definition check_entries (tbl : list (CrisisType * list string)) (step : Q)
  (text : string) : ChannelResult :=
  fold_left (check_entries_step text step) tbl empty_result.

(** [_check_crisis_keywords]: [score += 1] per keyword found. *)
Definition check_crisis_keywords (tbl : list (CrisisType * list string))
  (text : string) : ChannelResult :=
  check_entries tbl 1 text.

(** [_check_omani_expressions]: [score += 1.2] per expression found. *)
Definition check_omani_expressions (tbl : list (CrisisType * list string))
  (text : string) : ChannelResult :=
  check_entries tbl (6 # 5) text.

Definition dict_has {V} (d : list (string * V)) (k : string) : bool :=
  match dict_get d k with Some _ => true | None => false end.

(** [_check_crisis_patterns]: [re.findall] compiles each pattern string
    when it is called; a malformed one raises [re.error]. *)
Fixpoint check_crisis_patterns_from (tbl : list (string * (CrisisType * Q)))
  (text : string) (res : ChannelResult) : Result ChannelResult :=
  match tbl with
  | [] => Ok res
  | (pattern, (ct, weight)) :: tbl' =>
      match re_compile pattern with
      | None => Raise (ReError pattern)
      | Some rx =>
          let matches := re_findall_count rx text in
          if (0 <? matches)%nat then
            let type_name := CrisisType_value ct in
            let res1 :=
              if negb (dict_has (cr_scores res) type_name) then
                {| cr_types := (cr_types res ++ [type_name])%list;
                   cr_scores := dict_set (cr_scores res) type_name 0 |}
              else res in
            let res2 :=
              {| cr_types := cr_types res1;
                 cr_scores :=
                   dict_set (cr_scores res1) type_name
                     (dict_get0 (cr_scores res1) type_name
                      + inject_Z (Z.of_nat matches) * weight) |} in
            check_crisis_patterns_from tbl' text res2
          else check_crisis_patterns_from tbl' text res
      end
  end.

Definition check_crisis_patterns (tbl : list (string * (CrisisType * Q)))
  (text : string) : Result ChannelResult :=
  check_crisis_patterns_from tbl text empty_result.

(** ** Score fusion *)

Record FusedScore := {
  fs_types : list string;
  fs_scores : list (string * Q);
  fs_total : Q }.

(** [all_types.update(ts)]; the order of [list(all_types)] is Python's set
    order, taken here as first insertion. *)
Definition set_update (s ts : list string) : list string :=
  fold_left (fun acc t => if str_mem t acc then acc else (acc ++ [t])%list) ts s.

Definition combined_of (kw pat dia : ChannelResult) (t : string) : Q :=
  0 + dict_get0 (cr_scores kw) t * (3 # 10)
    + dict_get0 (cr_scores pat) t * (1 # 2)
    + dict_get0 (cr_scores dia) t * (2 # 5).

Definition sum_values (d : list (string * Q)) : Q :=
  fold_left Qplus (map snd d) 0.

(** [_calculate_combined_score]. *)
Definition calculate_combined_score (kw pat dia : ChannelResult) : FusedScore :=
  let all_types :=
    set_update (set_update (set_update [] (cr_types kw)) (cr_types pat))
      (cr_types dia) in
  let combined_scores :=
    fold_left (fun acc t => dict_set acc t (combined_of kw pat dia t))
      all_types [] in
  {| fs_types := all_types;
     fs_scores := combined_scores;
     fs_total := sum_values combined_scores |}.

(** ** Level classifier: [_determine_crisis_level] *)

Definition determine_crisis_level (cs : FusedScore) : CrisisLevel :=
  let total_score := fs_total cs in
  let detected_types := fs_types cs in
  if Qle_bool 3 total_score then CRITICAL
  else if str_mem "suicide" detected_types && Qle_bool 2 total_score then CRITICAL
  else if str_mem "violence" detected_types && Qle_bool (5 # 2) total_score then CRITICAL
  else if Qle_bool 2 total_score then HIGH
  else if (str_mem "suicide" detected_types || str_mem "self_harm" detected_types)
          && Qle_bool 1 total_score then HIGH
  else if Qle_bool 1 total_score then MEDIUM
  else if str_mem "severe_depression" detected_types && Qle_bool (1 # 2) total_score
  then MEDIUM
  else LOW.

(** ** Session tracker: [_analyze_session_patterns] *)

Fixpoint strictly_increasing (l : list Q) : bool :=
  match l with
  | x :: ((y :: _) as tl) => Qlt_b x y && strictly_increasing tl
  | _ => true
  end.

Definition crisis_count (history : list SessionRecord) : nat :=
  List.length (List.filter (fun entry => Qlt_b 1 (rec_score entry)) history).

Definition analyze_session_patterns (hist : gmap string (list SessionRecord))
  (session_id : string) (current_score : FusedScore) (now : Z)
  : Q * gmap string (list SessionRecord) :=
  let old := match hist !! session_id with Some h => h | None => [] end in
  let record := {| rec_timestamp := now;
                   rec_score := fs_total current_score;
                   rec_types := fs_types current_score |} in
  let history := py_tail 10 (old ++ [record])%list in
  let hist' := <[session_id := history]> hist in
  if (3 <=? List.length history)%nat
     && strictly_increasing (map rec_score (py_tail 3 history))
  then (1 # 2, hist')
  else if (2 <=? crisis_count history)%nat then (3 # 10, hist')
  else (0, hist').

(** ** Resource resolver: [_get_relevant_resources] *)

(** Python raises [KeyError] at [["emergency"]["police"]] when the key is
    missing; the emergency table of [__init__] has it. *)
Definition get_relevant_resources (er : EmergencyResources)
  (crisis_types : list string) : list (string * string) :=
  let r0 := dict_update [] (res_emergency er) in
  let r1 :=
    if existsb (fun t => str_mem t crisis_types)
         ["suicide"; "self_harm"; "severe_depression"]
    then dict_update (dict_update r0 (res_mental_health er)) (res_hospitals er)
    else r0 in
  let r2 :=
    if str_mem "violence" crisis_types then
      match dict_get (res_emergency er) "police" with
      | Some v => dict_set r1 "police" v
      | None => r1
      end
    else r1 in
  dict_update r2 (res_support er).

(** ** [assess_crisis_level] *)

Record Assessment := {
  crisis_level : string;
  crisis_score : Q;
  detected_types : list string;
  requires_escalation : bool;
  requires_immediate_intervention : bool;
  session_pattern_risk : Q;
  emergency_resources_out : list (string * string) }.

Definition assess_crisis_level (self : CrisisDetectionSystem) (text : string)
  (session_id : option string) (now : Z)
  : Result (Assessment * CrisisDetectionSystem) :=
  let text_lower := str_lower text in
  let keyword_results := check_crisis_keywords (crisis_keywords self) text_lower in
  match check_crisis_patterns (crisis_patterns self) text_lower with
  | Raise e => Raise e
  | Ok pattern_results =>
      let dialect_results :=
        check_omani_expressions (omani_crisis_expressions self) text_lower in
      let combined_score :=
        calculate_combined_score keyword_results pattern_results dialect_results in
      let level := determine_crisis_level combined_score in
      (* [if session_id:] -- None and "" are both falsy *)
      let '(risk, hist') :=
        match session_id with
        | Some sid =>
            if String.eqb sid "" then (0, session_history self)
            else analyze_session_patterns (session_history self) sid
                   combined_score now
        | None => (0, session_history self)
        end in
      Ok ({| crisis_level := CrisisLevel_value level;
             crisis_score := fs_total combined_score;
             detected_types := fs_types combined_score;
             requires_escalation :=
               CrisisLevel_eqb level HIGH || CrisisLevel_eqb level CRITICAL;
             requires_immediate_intervention := CrisisLevel_eqb level CRITICAL;
             session_pattern_risk := risk;
             emergency_resources_out :=
               get_relevant_resources (emergency_resources self)
                 (fs_types combined_score) |},
          with_history self hist')
  end.

(** The engine built by [__init__]. *)
Definition engine0 : CrisisDetectionSystem :=
  {| crisis_keywords := build_crisis_keywords;
     crisis_patterns := build_crisis_patterns;
     omani_crisis_expressions := build_omani_crisis_expressions;
     emergency_resources := build_emergency_resources;
     session_history := ∅ |}.

(** A sequence of turns [(text, session_id, now)]; an exception ends it. *)
Fixpoint run_turns (self : CrisisDetectionSystem)
  (turns : list (string * option string * Z)) : Result CrisisDetectionSystem :=
  match turns with
  | [] => Ok self
  | (text, sid, now) :: turns' =>
      match assess_crisis_level self text sid now with
      | Raise e => Raise e
      | Ok (_, self') => run_turns self' turns'
      end
  end.

(** ** Section 4.3 of the spec, as an ordered rule list *)

(** The rules of the spec, in order, each a condition and a level. *)
Definition level_rules (cs : FusedScore) : list (Prop * CrisisLevel) :=
  let t := fs_total cs in
  let d := fs_types cs in
  [ (3 <= t, CRITICAL);
    (In "suicide" d /\ 2 <= t, CRITICAL);
    (In "violence" d /\ 5 # 2 <= t, CRITICAL);
    (2 <= t, HIGH);
    ((In "suicide" d \/ In "self_harm" d) /\ 1 <= t, HIGH);
    (1 <= t, MEDIUM);
    (In "severe_depression" d /\ 1 # 2 <= t, MEDIUM) ].

(** [first_match rules l]: [l] is the level of the first rule whose
    condition holds, or LOW when none does. *)
Inductive first_match : list (Prop * CrisisLevel) -> CrisisLevel -> Prop :=
| fm_here (P : Prop) l rs : P -> first_match ((P, l) :: rs) l
| fm_later (P : Prop) l rs r : ~ P -> first_match rs r -> first_match ((P, l) :: rs) r
| fm_default : first_match [] LOW.


(** ** Section 4.2 of the spec *)

(** A channel result as the matchers build it: the listed types are the
    keys of the scores, listed once, and every score is positive. *)
Definition channel_ok (r : ChannelResult) : Prop :=
  NoDup (cr_types r) /\
  (forall t, In t (cr_types r) <-> dict_has (cr_scores r) t = true) /\
  (forall t v, dict_get (cr_scores r) t = Some v -> 0 < v).

(** The spec's combined score of a type; a channel that did not report the
    type contributes 0. *)
Definition spec_combined (kw pat dia : ChannelResult) (t : string) : Q :=
  (3 # 10) * dict_get0 (cr_scores kw) t
  + (1 # 2) * dict_get0 (cr_scores pat) t
  + (2 # 5) * dict_get0 (cr_scores dia) t.

(** ** Section 4.4 of the spec *)

(** Rule 1: the history has at least 3 records and its last three scores are
    strictly increasing. *)
Definition escalating (history : list SessionRecord) : Prop :=
  (3 <= List.length history)%nat /\
  exists a b c, map rec_score (py_tail 3 history) = [a; b; c] /\ a < b /\ b < c.

(** Every stored history has at most 10 records. *)
Definition histories_bounded (hist : gmap string (list SessionRecord)) : Prop :=
  forall sid h, hist !! sid = Some h -> (List.length h <= 10)%nat.

(** ** Section 4.5 of the spec *)

(** One of suicide, self_harm, severe_depression is detected. *)
Definition mh_detected (crisis_types : list string) : Prop :=
  exists t, In t ["suicide"; "self_harm"; "severe_depression"] /\ In t crisis_types.

(** ** Section 4.1 of the spec *)

(** The entry list of a type in a per-type table ([None] when the table has
    no entry for it). *)
Fixpoint table_lookup (tbl : list (CrisisType * list string)) (k : string)
  : option (list string) :=
  match tbl with
  | [] => None
  | (ct, l) :: tbl' =>
      if String.eqb k (CrisisType_value ct) then Some l else table_lookup tbl' k
  end.

(** Number of non-overlapping occurrences of [p] in [s] ([s.count(p)]). *)
Fixpoint str_count_from (fuel : nat) (p s : string) : nat :=
  match fuel with
  | O => O
  | S f =>
      match s with
      | EmptyString => O
      | String _ s' =>
          if str_prefix p s then S (str_count_from f p (str_drop (String.length p) s))
          else str_count_from f p s'
      end
  end.

Definition str_count (p s : string) : nat := str_count_from (String.length s) p s.

(** The spec's lexicon score read as a count of occurrences: the number of
    occurrences in [text] of each keyword of the type's list, summed. *)
Definition lexicon_occurrences (tbl : list (CrisisType * list string))
  (t : CrisisType) (text : string) : nat :=
  let kws := match table_lookup tbl (CrisisType_value t) with
             | Some l => l | None => [] end in
  fold_right Nat.add O (map (fun kw => str_count (str_lower kw) text) kws).

(** ** Section 3 of the spec: a Pattern Table with a malformed entry *)

Definition broken_patterns : list (string * (CrisisType * Q)) :=
  [("(أريد|بدي", (SUICIDE, 9 # 10))].

(** ** Response messages: [generate_crisis_response] *)

(** The message returned by [_generate_critical_response] when suicide is detected, byte for byte. *)
Definition critical_suicide_message : string :=
"
🚨 أفهم أنك تمر بوقت صعب جداً، لكن حياتك مهمة وقيمة.

يرجى التواصل فوراً مع:
📞 الطوارئ: 999
🏥 مستشفى السلطان قابوس: 24211411
🆘 أو توجه لأقرب قسم طوارئ

لست وحدك. هناك أشخاص يريدون مساعدتك.
            ".

(** The message returned by [_generate_critical_response] when violence, but not suicide, is detected, byte for byte. *)
Definition critical_violence_message : string :=
"
⚠️ أرى أنك تشعر بغضب شديد. دعنا نجد طرق آمنة للتعامل مع هذه المشاعر.

يرجى:
📞 الاتصال بـ 999 إذا كنت في خطر
🚶‍♂️ أخذ مساحة آمنة من الموقف
🧘‍♂️ التنفس بعمق وهدوء

أتفهم غضبك، لكن سلامتك وسلامة الآخرين أهم.
            ".

(** The message returned by [_generate_critical_response] otherwise, byte for byte. *)
Definition critical_general_message : string :=
"
🆘 أشعر بقلق شديد عليك. يرجى طلب المساعدة المهنية فوراً.

📞 اتصل بـ 999 أو توجه لأقرب مستشفى
👨‍⚕️ تحدث مع طبيب أو أخصائي نفسي
👨‍👩‍👧‍👦 أخبر شخص تثق به من عائلتك

وضعك يمكن تحسينه بالمساعدة المناسبة.
            ".

(** The message returned by [_generate_high_response], byte for byte. *)
Definition high_message : string :=
"
💛 أقدر ثقتك في مشاركة مشاعرك. ما تمر به صعب، لكن هناك حلول ومساعدة.

🔗 موارد المساعدة:
📞 خط المساعدة النفسية (قريباً)
🏥 مراكز الصحة النفسية
👨‍👩‍👧‍👦 التحدث مع شخص تثق به

🤲 تذكر أن الله معك في كل لحظة، والفرج قادم بإذن الله.
        ".

(** The message returned by [_generate_medium_response], byte for byte. *)
Definition medium_message : string :=
"
💙 أفهم أنك تواجه تحديات. هذا طبيعي في الحياة، والمهم كيف نتعامل معها.

💡 اقتراحات مفيدة:
🗣️ التحدث مع شخص تثق به
🤲 الدعاء والذكر للراحة النفسية
📚 قراءة القرآن للسكينة
🚶‍♂️ المشي والرياضة الخفيفة

أنا هنا لدعمك في هذه الرحلة.
        ".

(** The message returned by [_generate_low_response], byte for byte. *)
Definition low_message : string :=
"
💚 أسعدني أنك تشاركني أفكارك. التعبير عن المشاعر خطوة إيجابية.

دعنا نتحدث أكثر عما تشعر به وكيف يمكنني مساعدتك.
        ".

(** [_generate_critical_response]. *)
Definition generate_critical_response (crisis_types : list string) : string :=
  if str_mem "suicide" crisis_types then critical_suicide_message
  else if str_mem "violence" crisis_types then critical_violence_message
  else critical_general_message.

(** [_generate_high_response], [_generate_medium_response] and
    [_generate_low_response] ignore their argument. *)
Definition generate_high_response (crisis_types : list string) : string := high_message.

Definition generate_medium_response (crisis_types : list string) : string := medium_message.

Definition generate_low_response (crisis_types : list string) : string := low_message.

(** [generate_crisis_response]: dispatch on the level string of the
    assessment; any other string gets the low response. *)
Definition generate_crisis_response (assessment : Assessment) : string :=
  let crisis_level := crisis_level assessment in
  let detected_types := detected_types assessment in
  if String.eqb crisis_level "critical" then generate_critical_response detected_types
  else if String.eqb crisis_level "high" then generate_high_response detected_types
  else if String.eqb crisis_level "medium" then generate_medium_response detected_types
  else generate_low_response detected_types.

(** ** Orders and summaries used by the properties below *)

(** The levels in increasing severity. *)
Definition level_rank (l : CrisisLevel) : nat :=
  match l with LOW => 0 | MEDIUM => 1 | HIGH => 2 | CRITICAL => 3 end%nat.

(** The conditions under which [_determine_crisis_level] returns at least
    CRITICAL, at least HIGH and at least MEDIUM. *)
Definition critical_cond (t : Q) (d : list string) : Prop :=
  3 <= t \/ (In "suicide" d /\ 2 <= t) \/ (In "violence" d /\ 5 # 2 <= t).

Definition high_cond (t : Q) (d : list string) : Prop :=
  critical_cond t d \/ 2 <= t \/ ((In "suicide" d \/ In "self_harm" d) /\ 1 <= t).

Definition medium_cond (t : Q) (d : list string) : Prop :=
  high_cond t d \/ 1 <= t \/ (In "severe_depression" d /\ 1 # 2 <= t).




(** The stored history of session [sid] ([[]] when there is none). *)
Definition history_of (hist : gmap string (list SessionRecord)) (sid : string)
  : list SessionRecord :=
  match hist !! sid with Some h => h | None => [] end.
(** ** General lemmas *)

Lemma str_mem_In (x : string) (l : list string) : str_mem x l = true <-> In x l.
Proof.
  unfold str_mem. rewrite existsb_exists. split.
  - intros (y & Hy & Heq). apply String.eqb_eq in Heq. subst. exact Hy.
  - intros H. exists x. split; [exact H | apply String.eqb_refl].
Qed.

Lemma Qlt_b_iff (x y : Q) : Qlt_b x y = true <-> x < y.
Proof.
  unfold Qlt_b. rewrite negb_true_iff. split.
  - intros H. apply Qnot_le_lt. intros Hle. apply Qle_bool_iff in Hle. congruence.
  - intros H. destruct (Qle_bool y x) eqn:E; [|reflexivity].
    apply Qle_bool_iff in E. exfalso. exact (Qlt_not_le _ _ H E).
Qed.

Lemma Qle_reflect (x y : Q) : reflect (x <= y) (Qle_bool x y).
Proof. apply iff_reflect. symmetry. apply Qle_bool_iff. Qed.

Lemma mem_reflect (x : string) (l : list string) : reflect (In x l) (str_mem x l).
Proof. apply iff_reflect. symmetry. apply str_mem_In. Qed.

Lemma and_reflect (P Q : Prop) (b c : bool) :
  reflect P b -> reflect Q c -> reflect (P /\ Q) (b && c).
Proof. intros [] []; constructor; tauto. Qed.

Lemma or_reflect (P Q : Prop) (b c : bool) :
  reflect P b -> reflect Q c -> reflect (P \/ Q) (b || c).
Proof. intros [] []; constructor; tauto. Qed.

Create HintDb reflect_db.
#[local] Hint Resolve Qle_reflect mem_reflect and_reflect or_reflect : reflect_db.

Lemma fm_if (b : bool) (P : Prop) l rs r :
  reflect P b -> (b = false -> first_match rs r) ->
  first_match ((P, l) :: rs) (if b then l else r).
Proof.
  intros Hr Hf. destruct Hr.
  - apply fm_here. assumption.
  - apply fm_later; [assumption | apply Hf; reflexivity].
Qed.

Lemma first_match_functional rs l1 l2 :
  first_match rs l1 -> first_match rs l2 -> l1 = l2.
Proof.
  intros H1. revert l2. induction H1; intros l2 H2; inversion H2; subst.
  - reflexivity.
  - contradiction.
  - contradiction.
  - apply IHfirst_match. assumption.
  - reflexivity.
Qed.

Lemma determine_crisis_level_matches (cs : FusedScore) :
  first_match (level_rules cs) (determine_crisis_level cs).
Proof.
  unfold determine_crisis_level, level_rules.
  repeat (apply fm_if; [auto with reflect_db | intros _]).
  apply fm_default.
Qed.

Lemma dict_get_set {V} (d : list (string * V)) k v x :
  dict_get (dict_set d k v) x = if String.eqb x k then Some v else dict_get d x.
Proof.
  induction d as [|[k' v'] d IH]; simpl.
  - destruct (String.eqb x k); reflexivity.
  - destruct (String.eqb k k') eqn:Ek; simpl.
    + apply String.eqb_eq in Ek. subst k'. destruct (String.eqb x k); reflexivity.
    + rewrite IH. destruct (String.eqb x k) eqn:Ex; [|reflexivity].
      apply String.eqb_eq in Ex. subst x. rewrite Ek. reflexivity.
Qed.

Lemma dict_has_set {V} (d : list (string * V)) k v x :
  dict_has (dict_set d k v) x = String.eqb x k || dict_has d x.
Proof. unfold dict_has. rewrite dict_get_set. destruct (String.eqb x k); reflexivity. Qed.

Lemma dict_get_In {V} (d : list (string * V)) k v :
  dict_get d k = Some v -> In (k, v) d.
Proof.
  induction d as [|[k' v'] d IH]; simpl; [discriminate|].
  destruct (String.eqb k k') eqn:E.
  - intros H. injection H as <-. apply String.eqb_eq in E. subst. left. reflexivity.
  - intros H. right. apply IH. exact H.
Qed.

Lemma set_update_In (s ts : list string) t :
  In t (set_update s ts) <-> In t s \/ In t ts.
Proof.
  unfold set_update. revert s. induction ts as [|u ts IH]; intros s; simpl.
  - tauto.
  - rewrite IH. destruct (str_mem u s) eqn:E.
    + apply str_mem_In in E. split; [tauto|]. intros [H|[->|H]]; auto.
    + rewrite in_app_iff. simpl. tauto.
Qed.

Lemma set_update_NoDup (s ts : list string) :
  NoDup s -> NoDup (set_update s ts).
Proof.
  unfold set_update. revert s. induction ts as [|u ts IH]; intros s Hs; simpl.
  - exact Hs.
  - apply IH. destruct (str_mem u s) eqn:E; [exact Hs|].
    apply NoDup_app. split; [exact Hs|]. split.
    + intros x Hx Hx'. apply list_elem_of_In in Hx, Hx'. simpl in Hx'.
      destruct Hx' as [->|[]]. apply str_mem_In in Hx. congruence.
    + apply NoDup_singleton.
Qed.

Lemma dict_set_fresh {V} (d : list (string * V)) k v :
  dict_get d k = None -> dict_set d k v = (d ++ [(k, v)])%list.
Proof.
  induction d as [|[k' v'] d IH]; simpl; [reflexivity|].
  destruct (String.eqb k k') eqn:E; [discriminate|].
  intros H. rewrite IH by exact H. reflexivity.
Qed.

Lemma dict_get_app_none {V} (d : list (string * V)) k v x :
  x <> k -> dict_get (d ++ [(k, v)])%list x = dict_get d x.
Proof.
  intros Hne. induction d as [|[k' v'] d IH]; simpl.
  - destruct (String.eqb x k) eqn:E; [apply String.eqb_eq in E; congruence|reflexivity].
  - destruct (String.eqb x k'); [reflexivity|exact IH].
Qed.

Lemma fold_dict_set_fresh (f : string -> Q) (l : list string) acc :
  NoDup l -> (forall x, In x l -> dict_get acc x = None) ->
  fold_left (fun a t => dict_set a t (f t)) l acc
  = (acc ++ map (fun t => (t, f t)) l)%list.
Proof.
  revert acc. induction l as [|t l IH]; intros acc Hnd Hfr; simpl.
  - rewrite app_nil_r. reflexivity.
  - apply NoDup_cons in Hnd as [Hnin Hnd].
    rewrite dict_set_fresh by (apply Hfr; left; reflexivity).
    rewrite IH; [rewrite <- app_assoc; reflexivity | exact Hnd |].
    intros x Hx. rewrite dict_get_app_none.
    + apply Hfr. right. exact Hx.
    + intros ->. apply Hnin. apply list_elem_of_In. exact Hx.
Qed.

Lemma dict_get_map (f : string -> Q) (l : list string) x :
  dict_get (map (fun t => (t, f t)) l) x = if str_mem x l then Some (f x) else None.
Proof.
  induction l as [|t l IH]; simpl; [reflexivity|].
  unfold str_mem in *. simpl. destruct (String.eqb x t) eqn:E; simpl.
  - apply String.eqb_eq in E. subst. reflexivity.
  - exact IH.
Qed.

Lemma fold_Qplus (l : list Q) (a : Q) :
  fold_left Qplus l a == a + fold_right Qplus 0 l.
Proof.
  revert a. induction l as [|x l IH]; intros a; simpl.
  - ring.
  - rewrite IH. ring.
Qed.

Lemma dict_get0_nonneg (r : ChannelResult) t : channel_ok r -> 0 <= dict_get0 (cr_scores r) t.
Proof.
  intros (_ & _ & Hpos). unfold dict_get0. destruct (dict_get (cr_scores r) t) eqn:E.
  - apply Qlt_le_weak. eapply Hpos. exact E.
  - apply Qle_refl.
Qed.

Lemma dict_get0_pos (r : ChannelResult) t :
  channel_ok r -> In t (cr_types r) -> 0 < dict_get0 (cr_scores r) t.
Proof.
  intros (_ & Hk & Hpos) Hin. apply Hk in Hin. unfold dict_has, dict_get0 in *.
  destruct (dict_get (cr_scores r) t) eqn:E; [eapply Hpos; exact E | discriminate].
Qed.

Lemma dict_get0_absent (r : ChannelResult) t :
  channel_ok r -> ~ In t (cr_types r) -> dict_get0 (cr_scores r) t = 0.
Proof.
  intros (_ & Hk & _) Hnin. unfold dict_get0.
  destruct (dict_get (cr_scores r) t) eqn:E; [|reflexivity].
  exfalso. apply Hnin. apply Hk. unfold dict_has. rewrite E. reflexivity.
Qed.

Lemma dict_set_set {V} (d : list (string * V)) k v w :
  dict_set (dict_set d k v) k w = dict_set d k w.
Proof.
  induction d as [|[k' v'] d IH]; simpl.
  - rewrite String.eqb_refl. reflexivity.
  - destruct (String.eqb k k') eqn:E; simpl.
    + rewrite String.eqb_refl. reflexivity.
    + rewrite E, IH. reflexivity.
Qed.

Lemma channel_ok_empty : channel_ok empty_result.
Proof.
  split; [constructor|split].
  - intros t. unfold dict_has. simpl. split; [intros []|discriminate].
  - intros t v H. discriminate.
Qed.

Lemma channel_ok_add (res : ChannelResult) (k : string) (v : Q) :
  channel_ok res -> ~ In k (cr_types res) -> 0 < v ->
  channel_ok {| cr_types := (cr_types res ++ [k])%list;
                cr_scores := dict_set (cr_scores res) k v |}.
Proof.
  intros (Hnd & Hk & Hp) Hnin Hv. split; [|split]; cbn [cr_types cr_scores].
  - apply NoDup_app. split; [exact Hnd|]. split; [|apply NoDup_singleton].
    intros x Hx Hx'. apply list_elem_of_In in Hx, Hx'.
    destruct Hx' as [->|[]]. contradiction.
  - intros t. rewrite in_app_iff, dict_has_set, orb_true_iff, String.eqb_eq, <- Hk.
    simpl. intuition.
  - intros t w. rewrite dict_get_set. destruct (String.eqb t k).
    + intros H. injection H as <-. exact Hv.
    + apply Hp.
Qed.

Lemma check_entries_fold_ok (tbl : list (CrisisType * list string)) step text res :
  0 < step -> NoDup (map (fun e => CrisisType_value e.1) tbl) ->
  channel_ok res ->
  (forall e, In e tbl -> ~ In (CrisisType_value e.1) (cr_types res)) ->
  channel_ok (fold_left (check_entries_step text step) tbl res).
Proof.
  revert res. induction tbl as [|entry tbl IH]; intros res Hstep Hnd Hok Hfresh; simpl.
  - exact Hok.
  - simpl in Hnd. apply NoDup_cons in Hnd as [Hnin Hnd].
    apply IH; [exact Hstep | exact Hnd | |].
    + unfold check_entries_step. destruct (Qlt_b 0 _) eqn:E; [|exact Hok].
      apply channel_ok_add; [exact Hok | apply Hfresh; left; reflexivity |].
      apply Qlt_b_iff. exact E.
    + intros e He. unfold check_entries_step. destruct (Qlt_b 0 _); cbn [cr_types].
      * rewrite in_app_iff. simpl. intros [H|[H|[]]].
        -- exact (Hfresh e (or_intror He) H).
        -- apply Hnin. apply list_elem_of_In. rewrite H. exact (in_map (fun e0 => CrisisType_value e0.1) tbl e He).
      * apply Hfresh. right. exact He.
Qed.

Lemma check_entries_ok (tbl : list (CrisisType * list string)) step text :
  0 < step -> NoDup (map (fun e => CrisisType_value e.1) tbl) ->
  channel_ok (check_entries tbl step text).
Proof.
  intros Hs Hnd. apply check_entries_fold_ok; [exact Hs | exact Hnd | apply channel_ok_empty |].
  intros e _ [].
Qed.

Lemma inject_nat_pos (m : nat) : (0 < m)%nat -> 0 < inject_Z (Z.of_nat m).
Proof. intros H. unfold Qlt. simpl. lia. Qed.

Lemma check_crisis_patterns_from_ok (tbl : list (string * (CrisisType * Q))) text res res' :
  Forall (fun p => 0 < p.2.2) tbl -> channel_ok res ->
  check_crisis_patterns_from tbl text res = Ok res' -> channel_ok res'.
Proof.
  revert res. induction tbl as [|[pattern [ct w]] tbl IH]; intros res Hw Hok H; simpl in H.
  - injection H as <-. exact Hok.
  - apply Forall_cons in Hw as [Hw0 Hw]. simpl in Hw0.
    destruct (re_compile pattern) as [rx|]; [|discriminate].
    destruct (0 <? re_findall_count rx text)%nat eqn:Em; [|exact (IH res Hw Hok H)].
    apply Nat.ltb_lt in Em.
    assert (Hmw : 0 < inject_Z (Z.of_nat (re_findall_count rx text)) * w)
      by (apply Qmult_lt_0_compat; [apply inject_nat_pos; exact Em | exact Hw0]).
    destruct (dict_has (cr_scores res) (CrisisType_value ct)) eqn:Eh;
      cbn [negb cr_types cr_scores] in H.
    + eapply IH; [exact Hw | | exact H].
      destruct Hok as (Hnd & Hk & Hp). split; [exact Hnd|split]; cbn [cr_types cr_scores].
      * intros t. rewrite dict_has_set, Hk.
        destruct (String.eqb t (CrisisType_value ct)) eqn:Et; [|reflexivity].
        apply String.eqb_eq in Et. subst t. rewrite Eh. reflexivity.
      * intros t v. rewrite dict_get_set.
        destruct (String.eqb t (CrisisType_value ct)); [|apply Hp].
        intros Hv. injection Hv as <-.
        pose proof (dict_get0_nonneg res (CrisisType_value ct) (conj Hnd (conj Hk Hp))).
        lra.
    + eapply IH; [exact Hw | | exact H]. cbn [cr_types cr_scores].
      rewrite dict_set_set. apply channel_ok_add; [exact Hok | | ].
      * destruct Hok as (_ & Hk & _). rewrite Hk, Eh. discriminate.
      * unfold dict_get0. rewrite dict_get_set, String.eqb_refl. lra.
Qed.

Lemma build_crisis_patterns_weights_pos :
  Forall (fun p => 0 < p.2.2) build_crisis_patterns.
Proof.
  unfold build_crisis_patterns.
  repeat (apply List.Forall_cons; [vm_compute; reflexivity|]). apply List.Forall_nil.
Qed.

Lemma check_crisis_keywords_ok (tbl : list (CrisisType * list string)) text :
  NoDup (map (fun e => CrisisType_value e.1) tbl) ->
  channel_ok (check_crisis_keywords tbl text).
Proof. intros H. apply check_entries_ok; [vm_compute; reflexivity | exact H]. Qed.

Lemma check_omani_expressions_ok (tbl : list (CrisisType * list string)) text :
  NoDup (map (fun e => CrisisType_value e.1) tbl) ->
  channel_ok (check_omani_expressions tbl text).
Proof. intros H. apply check_entries_ok; [vm_compute; reflexivity | exact H]. Qed.

Lemma check_crisis_patterns_ok (tbl : list (string * (CrisisType * Q))) text pat :
  Forall (fun p => 0 < p.2.2) tbl ->
  check_crisis_patterns tbl text = Ok pat -> channel_ok pat.
Proof.
  intros Hw H. exact (check_crisis_patterns_from_ok tbl text empty_result pat
                        Hw channel_ok_empty H).
Qed.

Lemma build_tables_types_NoDup :
  NoDup (map (fun e => CrisisType_value e.1) build_crisis_keywords) /\
  NoDup (map (fun e => CrisisType_value e.1) build_omani_crisis_expressions).
Proof.
  split; simpl; apply (bool_decide_unpack _); vm_compute; exact I.
Qed.

Lemma engine0_channels_ok (text : string) :
  channel_ok (check_crisis_keywords build_crisis_keywords text) /\
  channel_ok (check_omani_expressions build_omani_crisis_expressions text) /\
  (forall pat, check_crisis_patterns build_crisis_patterns text = Ok pat ->
               channel_ok pat).
Proof.
  destruct build_tables_types_NoDup as [H1 H2].
  split; [|split].
  - exact (check_crisis_keywords_ok _ text H1).
  - exact (check_omani_expressions_ok _ text H2).
  - intros pat H.
    exact (check_crisis_patterns_ok _ text pat build_crisis_patterns_weights_pos H).
Qed.

Lemma py_tail_length {A} (n : nat) (l : list A) :
  List.length (py_tail n l) = Nat.min n (List.length l).
Proof. unfold py_tail. rewrite length_skipn. lia. Qed.

Lemma escalating_reflect (history : list SessionRecord) :
  reflect (escalating history)
    ((3 <=? List.length history)%nat
     && strictly_increasing (map rec_score (py_tail 3 history))).
Proof.
  apply iff_reflect. unfold escalating. rewrite andb_true_iff, Nat.leb_le. split.
  - intros (Hlen & a & b & c & Hm & Hab & Hbc). split; [exact Hlen|].
    rewrite Hm. simpl. rewrite andb_true_iff, andb_true_iff, !Qlt_b_iff. tauto.
  - intros [Hlen Hsi]. split; [exact Hlen|].
    assert (Hl3 : List.length (map rec_score (py_tail 3 history)) = 3%nat)
      by (rewrite length_map, py_tail_length; lia).
    destruct (map rec_score (py_tail 3 history)) as [|a [|b [|c [|d l]]]];
      simpl in Hl3; try lia.
    exists a, b, c. simpl in Hsi. rewrite andb_true_iff, andb_true_iff, !Qlt_b_iff in Hsi.
    tauto.
Qed.

Lemma analyze_session_patterns_spec (hist : gmap string (list SessionRecord))
  (sid : string) (cs : FusedScore) (now : Z) :
  let old := match hist !! sid with Some h => h | None => [] end in
  let history := py_tail 10 (old ++ [{| rec_timestamp := now;
                                         rec_score := fs_total cs;
                                         rec_types := fs_types cs |}])%list in
  (analyze_session_patterns hist sid cs now).2 = <[sid := history]> hist /\
  (escalating history -> (analyze_session_patterns hist sid cs now).1 = 1 # 2) /\
  (~ escalating history -> (2 <= crisis_count history)%nat ->
     (analyze_session_patterns hist sid cs now).1 = 3 # 10) /\
  (~ escalating history -> (crisis_count history < 2)%nat ->
     (analyze_session_patterns hist sid cs now).1 = 0).
Proof.
  intros old history. unfold analyze_session_patterns. fold old. fold history.
  destruct (escalating_reflect history) as [He|He].
  - simpl. split; [reflexivity|]. split; [reflexivity|]. split; intros; contradiction.
  - destruct (2 <=? crisis_count history)%nat eqn:Ec; cbn [fst snd].
    + apply Nat.leb_le in Ec. split; [reflexivity|]. split; [intros; contradiction|].
      split; [reflexivity | intros _ Hlt; lia].
    + apply Nat.leb_gt in Ec. split; [reflexivity|]. split; [intros; contradiction|].
      split; [intros _ Hle; lia | reflexivity].
Qed.

Lemma with_history_id (self : CrisisDetectionSystem) :
  with_history self (session_history self) = self.
Proof. destruct self. reflexivity. Qed.

(** One call of [assess_crisis_level], once the patterns have been run. *)
Lemma assess_crisis_level_eq (self : CrisisDetectionSystem) text session_id now pat :
  check_crisis_patterns (crisis_patterns self) (str_lower text) = Ok pat ->
  let cs := calculate_combined_score
              (check_crisis_keywords (crisis_keywords self) (str_lower text)) pat
              (check_omani_expressions (omani_crisis_expressions self) (str_lower text)) in
  let step := match session_id with
              | Some sid =>
                  if String.eqb sid "" then (0, session_history self)
                  else analyze_session_patterns (session_history self) sid cs now
              | None => (0, session_history self)
              end in
  assess_crisis_level self text session_id now
  = Ok ({| crisis_level := CrisisLevel_value (determine_crisis_level cs);
           crisis_score := fs_total cs;
           detected_types := fs_types cs;
           requires_escalation :=
             CrisisLevel_eqb (determine_crisis_level cs) HIGH
             || CrisisLevel_eqb (determine_crisis_level cs) CRITICAL;
           requires_immediate_intervention :=
             CrisisLevel_eqb (determine_crisis_level cs) CRITICAL;
           session_pattern_risk := step.1;
           emergency_resources_out :=
             get_relevant_resources (emergency_resources self) (fs_types cs) |},
        with_history self step.2).
Proof.
  intros Hp cs step. unfold assess_crisis_level. rewrite Hp. fold cs. fold step.
  destruct step as [risk hist']. reflexivity.
Qed.

Lemma check_crisis_patterns_from_compiles (tbl : list (string * (CrisisType * Q)))
  text res :
  Forall (fun p => re_compile p.1 <> None) tbl ->
  exists r, check_crisis_patterns_from tbl text res = Ok r.
Proof.
  revert res. induction tbl as [|[pattern [ct w]] tbl IH]; intros res Hc; simpl.
  - exists res. reflexivity.
  - apply Forall_cons in Hc as [Hc0 Hc]. simpl in Hc0.
    destruct (re_compile pattern) as [rx|]; [|congruence].
    destruct (0 <? re_findall_count rx text)%nat; apply IH; exact Hc.
Qed.

Lemma check_crisis_patterns_from_raise (tbl : list (string * (CrisisType * Q)))
  text res p :
  In p (map fst tbl) -> re_compile p = None ->
  exists e, check_crisis_patterns_from tbl text res = Raise e.
Proof.
  revert res. induction tbl as [|[pattern [ct w]] tbl IH]; intros res Hin Hc; simpl.
  - contradiction.
  - simpl in Hin. destruct (re_compile pattern) as [rx|] eqn:Er.
    + destruct Hin as [->|Hin]; [congruence|].
      destruct (0 <? re_findall_count rx text)%nat; apply IH; assumption.
    + exists (ReError pattern). reflexivity.
Qed.

Lemma build_crisis_patterns_compile :
  Forall (fun p => re_compile p.1 <> None) build_crisis_patterns.
Proof.
  unfold build_crisis_patterns.
  repeat (apply List.Forall_cons; [vm_compute; discriminate|]). apply List.Forall_nil.
Qed.

Lemma engine_patterns_run (self : CrisisDetectionSystem) text :
  crisis_patterns self = build_crisis_patterns ->
  exists pat, check_crisis_patterns (crisis_patterns self) text = Ok pat.
Proof.
  intros ->. apply check_crisis_patterns_from_compiles. apply build_crisis_patterns_compile.
Qed.

Lemma str_mem_filter (f : string -> bool) (x : string) (l : list string) :
  f x = true -> str_mem x (List.filter f l) = str_mem x l.
Proof.
  intros Hx. unfold str_mem. induction l as [|a l IH]; simpl; [reflexivity|].
  destruct (f a) eqn:Ea; simpl.
  - rewrite IH. reflexivity.
  - rewrite IH. destruct (String.eqb x a) eqn:E; [|reflexivity].
    apply String.eqb_eq in E. subst. congruence.
Qed.

Lemma str_mem_filter_out (f : string -> bool) (x : string) (l : list string) :
  f x = false -> str_mem x (List.filter f l) = false.
Proof.
  intros Hx. unfold str_mem. induction l as [|a l IH]; simpl; [reflexivity|].
  destruct (f a) eqn:Ea; simpl; [|exact IH].
  rewrite IH. destruct (String.eqb x a) eqn:E; [|reflexivity].
  apply String.eqb_eq in E. subst. congruence.
Qed.

Lemma resources_police (crisis_types : list string) :
  dict_get (get_relevant_resources build_emergency_resources crisis_types) "police"
  = Some "999".
Proof.
  unfold get_relevant_resources.
  destruct (existsb _ _), (str_mem "violence" crisis_types); vm_compute; reflexivity.
Qed.

Lemma resources_ignore_violence (crisis_types : list string) :
  get_relevant_resources build_emergency_resources crisis_types
  = get_relevant_resources build_emergency_resources
      (List.filter (fun t => negb (String.eqb t "violence")) crisis_types).
Proof.
  unfold get_relevant_resources.
  rewrite (str_mem_filter_out _ "violence") by reflexivity.
  simpl existsb. rewrite !(str_mem_filter (fun t => negb (String.eqb t "violence")))
    by reflexivity.
  destruct (str_mem "suicide" crisis_types || _),
    (str_mem "violence" crisis_types); vm_compute; reflexivity.
Qed.

Lemma mh_reflect (crisis_types : list string) :
  reflect (mh_detected crisis_types)
    (existsb (fun t => str_mem t crisis_types)
       ["suicide"; "self_harm"; "severe_depression"]).
Proof.
  apply iff_reflect. unfold mh_detected. rewrite existsb_exists.
  split; intros (t & H1 & H2); exists t; split; try exact H1;
    apply str_mem_In; exact H2.
Qed.

Lemma dict_has_update {V} (d e : list (string * V)) k :
  dict_has d k = true -> dict_has (dict_update d e) k = true.
Proof.
  unfold dict_update. revert d. induction e as [|[k' v'] e IH]; intros d H; simpl.
  - exact H.
  - apply IH. rewrite dict_has_set, H. apply orb_true_r.
Qed.

Lemma dict_get_set_eq {V} (d : list (string * V)) k v :
  dict_get (dict_set d k v) k = Some v.
Proof. rewrite dict_get_set, String.eqb_refl. reflexivity. Qed.

Lemma entry_score_fold (text : string) (l : list string) (step a : Q) :
  fold_left (fun score e => if str_contains (str_lower e) text then score + step else score)
    l a
  == a + step * inject_Z (Z.of_nat
                  (List.length (List.filter (fun e => str_contains (str_lower e) text) l))).
Proof.
  revert a. induction l as [|e l IH]; intros a; simpl.
  - ring.
  - destruct (str_contains (str_lower e) text); simpl; rewrite IH; [|reflexivity].
    rewrite Nat2Z.inj_succ, <- Z.add_1_r, inject_Z_plus. ring.
Qed.

Lemma entry_score_count (text : string) (l : list string) (step : Q) :
  entry_score text l step
  == step * inject_Z (Z.of_nat
              (List.length (List.filter (fun e => str_contains (str_lower e) text) l))).
Proof. unfold entry_score. rewrite entry_score_fold. ring. Qed.

Lemma table_lookup_none (tbl : list (CrisisType * list string)) k :
  ~ In k (map (fun e => CrisisType_value e.1) tbl) -> table_lookup tbl k = None.
Proof.
  induction tbl as [|[ct l] tbl IH]; simpl; intros H; [reflexivity|].
  destruct (String.eqb k (CrisisType_value ct)) eqn:E.
  - apply String.eqb_eq in E. exfalso. apply H. left. symmetry. exact E.
  - apply IH. intros Hin. apply H. right. exact Hin.
Qed.

Lemma check_entries_fold_get (tbl : list (CrisisType * list string)) step text res k :
  NoDup (map (fun e => CrisisType_value e.1) tbl) ->
  dict_get (cr_scores (fold_left (check_entries_step text step) tbl res)) k
  = match table_lookup tbl k with
    | Some l => if Qlt_b 0 (entry_score text l step) then Some (entry_score text l step)
                else dict_get (cr_scores res) k
    | None => dict_get (cr_scores res) k
    end.
Proof.
  revert res. induction tbl as [|[ct l] tbl IH]; intros res Hnd; simpl; [reflexivity|].
  simpl in Hnd. apply NoDup_cons in Hnd as [Hnin Hnd].
  rewrite IH by exact Hnd. destruct (String.eqb k (CrisisType_value ct)) eqn:E.
  - apply String.eqb_eq in E. subst k.
    rewrite table_lookup_none by (intros Hin; apply Hnin, list_elem_of_In; exact Hin).
    unfold check_entries_step. cbn [fst snd].
    destruct (Qlt_b 0 (entry_score text l step)); cbn [cr_scores]; [|reflexivity].
    apply dict_get_set_eq.
  - destruct (table_lookup tbl k) as [l'|];
      [destruct (Qlt_b 0 (entry_score text l' step)); [reflexivity|]|];
      unfold check_entries_step; cbn [fst snd];
      destruct (Qlt_b 0 (entry_score text l step)); cbn [cr_scores];
      try reflexivity; rewrite dict_get_set, E; reflexivity.
Qed.

Lemma check_entries_fold_types (tbl : list (CrisisType * list string)) step text res k :
  NoDup (map (fun e => CrisisType_value e.1) tbl) ->
  In k (cr_types (fold_left (check_entries_step text step) tbl res))
  <-> In k (cr_types res) \/
      match table_lookup tbl k with
      | Some l => Qlt_b 0 (entry_score text l step) = true
      | None => False
      end.
Proof.
  revert res. induction tbl as [|[ct l] tbl IH]; intros res Hnd; simpl; [tauto|].
  simpl in Hnd. apply NoDup_cons in Hnd as [Hnin Hnd].
  rewrite IH by exact Hnd. unfold check_entries_step. cbn [fst snd].
  destruct (String.eqb k (CrisisType_value ct)) eqn:E.
  - apply String.eqb_eq in E. subst k.
    rewrite table_lookup_none by (intros Hin; apply Hnin, list_elem_of_In; exact Hin).
    destruct (Qlt_b 0 (entry_score text l step)); cbn [cr_types];
      [rewrite in_app_iff; simpl|]; intuition discriminate.
  - destruct (Qlt_b 0 (entry_score text l step)); cbn [cr_types]; [|tauto].
    rewrite in_app_iff. simpl. apply String.eqb_neq in E.
    intuition congruence.
Qed.

Lemma combined_of_spec (kw pat dia : ChannelResult) t :
  combined_of kw pat dia t == spec_combined kw pat dia t.
Proof. unfold combined_of, spec_combined. ring. Qed.

Lemma sum_map_Qeq (f g : string -> Q) (l : list string) :
  (forall x, f x == g x) ->
  fold_right Qplus 0 (map f l) == fold_right Qplus 0 (map g l).
Proof.
  intros H. induction l as [|x l IH]; simpl; [reflexivity|].
  rewrite IH, H. reflexivity.
Qed.

Lemma calculate_combined_score_shape (kw pat dia : ChannelResult) :
  let all := set_update (set_update (set_update [] (cr_types kw)) (cr_types pat))
               (cr_types dia) in
  calculate_combined_score kw pat dia
  = {| fs_types := all;
       fs_scores := map (fun t => (t, combined_of kw pat dia t)) all;
       fs_total := sum_values (map (fun t => (t, combined_of kw pat dia t)) all) |}.
Proof.
  intros all. unfold calculate_combined_score. fold all.
  rewrite fold_dict_set_fresh; [reflexivity | | intros; reflexivity].
  unfold all. repeat apply set_update_NoDup. constructor.
Qed.

(** C1: the level classifier returns the level of the first rule of the
    spec's ordered list whose condition holds (all bounds inclusive), LOW
    when none holds; and it returns no other level. *)
Theorem determine_crisis_level_first_rule (cs : FusedScore) (l : CrisisLevel) :
  first_match (level_rules cs) l <-> l = determine_crisis_level cs.
Proof.
  split.
  - intros H. eapply first_match_functional; [exact H|].
    apply determine_crisis_level_matches.
  - intros ->. apply determine_crisis_level_matches.
Qed.

(** C2: for channel results as the matchers build them, fusion lists each
    type reported by some channel once; its combined score is
    0.3 * lexicon + 0.5 * pattern + 0.4 * dialect (0 for a channel without
    the type); the listed types are exactly those with a positive combined
    score; and the total is the sum of the combined scores of those types. *)
Theorem calculate_combined_score_spec (kw pat dia : ChannelResult) :
  channel_ok kw -> channel_ok pat -> channel_ok dia ->
  let cs := calculate_combined_score kw pat dia in
  NoDup (fs_types cs) /\
  (forall t, In t (fs_types cs) <->
             In t (cr_types kw) \/ In t (cr_types pat) \/ In t (cr_types dia)) /\
  (forall t, In t (fs_types cs) <-> 0 < spec_combined kw pat dia t) /\
  (forall t, In t (fs_types cs) ->
     exists v, dict_get (fs_scores cs) t = Some v /\ v == spec_combined kw pat dia t) /\
  (forall t, ~ In t (fs_types cs) -> dict_get (fs_scores cs) t = None) /\
  fs_total cs == fold_right Qplus 0 (map (spec_combined kw pat dia) (fs_types cs)).
Proof.
  intros Hk Hp Hd cs. unfold cs. rewrite calculate_combined_score_shape.
  set (all := set_update (set_update (set_update [] (cr_types kw)) (cr_types pat))
                (cr_types dia)).
  assert (Hin : forall t, In t all <->
                  In t (cr_types kw) \/ In t (cr_types pat) \/ In t (cr_types dia)).
  { intros t. unfold all. rewrite !set_update_In. simpl. tauto. }
  assert (Hpos : forall t, In t all <-> 0 < spec_combined kw pat dia t).
  { intros t. rewrite Hin.
    pose proof (dict_get0_nonneg kw t Hk). pose proof (dict_get0_nonneg pat t Hp).
    pose proof (dict_get0_nonneg dia t Hd). unfold spec_combined. split.
    - intros [Hx|[Hx|Hx]].
      + pose proof (dict_get0_pos kw t Hk Hx). lra.
      + pose proof (dict_get0_pos pat t Hp Hx). lra.
      + pose proof (dict_get0_pos dia t Hd Hx). lra.
    - intros Hlt.
      destruct (str_mem t (cr_types kw)) eqn:E1; [left; apply str_mem_In; exact E1|].
      destruct (str_mem t (cr_types pat)) eqn:E2; [right; left; apply str_mem_In; exact E2|].
      destruct (str_mem t (cr_types dia)) eqn:E3; [right; right; apply str_mem_In; exact E3|].
      exfalso.
      rewrite (dict_get0_absent kw t Hk), (dict_get0_absent pat t Hp),
        (dict_get0_absent dia t Hd) in Hlt
        by (intros HH; apply str_mem_In in HH; congruence).
      lra. }
  cbn [fs_types fs_scores fs_total].
  split; [unfold all; repeat apply set_update_NoDup; constructor|].
  split; [exact Hin|]. split; [exact Hpos|]. split; [|split].
  - intros t Ht. exists (combined_of kw pat dia t). split.
    + rewrite dict_get_map. apply str_mem_In in Ht. rewrite Ht. reflexivity.
    + apply combined_of_spec.
  - intros t Ht. rewrite dict_get_map.
    destruct (str_mem t all) eqn:E; [apply str_mem_In in E; contradiction|reflexivity].
  - unfold sum_values. rewrite map_map. simpl.
    rewrite fold_Qplus. rewrite sum_map_Qeq with (g := spec_combined kw pat dia)
      by apply combined_of_spec. ring.
Qed.

(** C3: once the tracker runs (non-empty session id), the session's history
    becomes the last 10 of the old history with the current record
    appended, and the risk is 0.5 if the last three scores of that history
    strictly increase (at least 3 records), else 0.3 if at least two
    records score above 1.0, else 0; so a history whose last three scores
    are not strictly increasing never gets 0.5. *)
Theorem session_pattern_risk_rules (self : CrisisDetectionSystem) (text sid : string)
  (now : Z) (a : Assessment) (self' : CrisisDetectionSystem) :
  sid <> "" ->
  assess_crisis_level self text (Some sid) now = Ok (a, self') ->
  let old := match session_history self !! sid with Some h => h | None => [] end in
  let history := py_tail 10 (old ++ [{| rec_timestamp := now;
                                         rec_score := crisis_score a;
                                         rec_types := detected_types a |}])%list in
  session_history self' = <[sid := history]> (session_history self) /\
  (escalating history -> session_pattern_risk a = 1 # 2) /\
  (~ escalating history -> (2 <= crisis_count history)%nat ->
     session_pattern_risk a = 3 # 10) /\
  (~ escalating history -> (crisis_count history < 2)%nat ->
     session_pattern_risk a = 0) /\
  (~ escalating history -> session_pattern_risk a <> 1 # 2).
Proof.
  intros Hsid H old history.
  destruct (check_crisis_patterns (crisis_patterns self) (str_lower text)) as [pat|e]
    eqn:Hp.
  2:{ unfold assess_crisis_level in H. rewrite Hp in H. discriminate. }
  rewrite (assess_crisis_level_eq self text (Some sid) now pat Hp) in H.
  apply String.eqb_neq in Hsid. rewrite Hsid in H.
  injection H as <- <-. cbn [session_history with_history session_pattern_risk
                               crisis_score detected_types] in *.
  destruct (analyze_session_patterns_spec (session_history self) sid
              (calculate_combined_score
                 (check_crisis_keywords (crisis_keywords self) (str_lower text)) pat
                 (check_omani_expressions (omani_crisis_expressions self)
                    (str_lower text))) now)
    as (H2 & He & Hp3 & H0).
  fold old in H2, He, Hp3, H0. fold history in H2, He, Hp3, H0.
  split; [exact H2|]. split; [exact He|]. split; [exact Hp3|]. split; [exact H0|].
  intros Hne. destruct (2 <=? crisis_count history)%nat eqn:Ec.
  - apply Nat.leb_le in Ec. rewrite (Hp3 Hne Ec). discriminate.
  - apply Nat.leb_gt in Ec. rewrite (H0 Hne Ec). discriminate.
Qed.

Lemma assess_preserves_bounded (self : CrisisDetectionSystem) text sid now a self' :
  histories_bounded (session_history self) ->
  assess_crisis_level self text sid now = Ok (a, self') ->
  histories_bounded (session_history self').
Proof.
  intros Hb H.
  destruct (check_crisis_patterns (crisis_patterns self) (str_lower text)) as [pat|e]
    eqn:Hp.
  2:{ unfold assess_crisis_level in H. rewrite Hp in H. discriminate. }
  rewrite (assess_crisis_level_eq self text sid now pat Hp) in H.
  injection H as _ <-. cbn [session_history with_history].
  destruct sid as [sid|]; [destruct (String.eqb sid "")|]; cbn [snd]; try exact Hb.
  rewrite (proj1 (analyze_session_patterns_spec _ _ _ _)).
  intros k h Hk. destruct (decide (k = sid)) as [->|Hne].
  - rewrite lookup_insert_eq in Hk. injection Hk as <-.
    rewrite py_tail_length. lia.
  - rewrite lookup_insert_ne in Hk by congruence. exact (Hb k h Hk).
Qed.

(** C6: over any number of turns, starting from histories of at most 10
    records (the empty map of [__init__] among them), every stored session
    history keeps at most 10 records. *)
Theorem session_history_bounded (self : CrisisDetectionSystem)
  (turns : list (string * option string * Z)) (self' : CrisisDetectionSystem) :
  histories_bounded (session_history self) ->
  run_turns self turns = Ok self' ->
  histories_bounded (session_history self').
Proof.
  revert self. induction turns as [|[[text sid] now] turns IH]; intros self Hb H; simpl in H.
  - injection H as <-. exact Hb.
  - destruct (assess_crisis_level self text sid now) as [[a s1]|e] eqn:Ha; [|discriminate].
    apply (IH s1); [|exact H]. exact (assess_preserves_bounded self text sid now a s1 Hb Ha).
Qed.

(** C10: an empty session id behaves as no session id: same result, the
    session map is left as it is and the session risk is 0. *)
Theorem empty_session_id_as_none (self : CrisisDetectionSystem) (text : string) (now : Z) :
  assess_crisis_level self text (Some "") now = assess_crisis_level self text None now /\
  match assess_crisis_level self text None now with
  | Ok (a, self') => self' = self /\ session_pattern_risk a = 0
  | Raise _ => True
  end.
Proof.
  split.
  - unfold assess_crisis_level.
    destruct (check_crisis_patterns _ _); reflexivity.
  - destruct (check_crisis_patterns (crisis_patterns self) (str_lower text)) as [pat|e]
      eqn:Hp.
    + rewrite (assess_crisis_level_eq self text None now pat Hp). cbn [fst snd].
      split; [apply with_history_id | reflexivity].
    + unfold assess_crisis_level. rewrite Hp. exact I.
Qed.

(** C4 (counterexample): the text "انتحار انتحار" holds two occurrences of
    the suicide keyword "انتحار", but the lexicon channel scores suicide 1:
    the code adds 1 per distinct keyword found, not per occurrence. *)
Lemma lexicon_score_occurrences_cex :
  let text := str_lower "انتحار انتحار" in
  dict_get (cr_scores (check_crisis_keywords build_crisis_keywords text)) "suicide"
    = Some 1 /\
  lexicon_occurrences build_crisis_keywords SUICIDE text = 2%nat.
Proof. split; vm_compute; reflexivity. Qed.

(** C4 (amended): for every text and type, the lexicon channel's score of the
    type is the number of distinct keywords of the type's list that occur,
    as substrings, in the lowercased text ([keyword.lower() in text]); the
    type is in the result iff that number is positive, and absent from the
    scores otherwise. *)
Theorem lexicon_score_distinct_keywords (text : string) (t : CrisisType) :
  let kws := match table_lookup build_crisis_keywords (CrisisType_value t) with
             | Some l => l | None => [] end in
  let n := List.length
             (List.filter (fun kw => str_contains (str_lower kw) (str_lower text)) kws) in
  let res := check_crisis_keywords build_crisis_keywords (str_lower text) in
  (In (CrisisType_value t) (cr_types res) <-> (0 < n)%nat) /\
  (dict_get (cr_scores res) (CrisisType_value t) = None <-> n = 0%nat) /\
  (forall v, dict_get (cr_scores res) (CrisisType_value t) = Some v ->
     v == inject_Z (Z.of_nat n)).
Proof.
  intros kws n res.
  assert (Hnd : NoDup (map (fun e => CrisisType_value e.1) build_crisis_keywords))
    by (apply build_tables_types_NoDup).
  assert (Hpos : forall l, Qlt_b 0 (entry_score (str_lower text) l 1) = true <->
            (0 < List.length (List.filter
                   (fun kw => str_contains (str_lower kw) (str_lower text)) l))%nat).
  { intros l. rewrite Qlt_b_iff, entry_score_count, Qmult_1_l.
    unfold Qlt. cbn [Qnum Qden inject_Z]. split; intros; lia. }
  unfold res, check_crisis_keywords, check_entries.
  rewrite check_entries_fold_types by exact Hnd.
  rewrite check_entries_fold_get by exact Hnd.
  cbn [cr_types cr_scores empty_result dict_get].
  unfold n; unfold kws. destruct (table_lookup build_crisis_keywords (CrisisType_value t))
    as [l|]; simpl.
  - specialize (Hpos l).
    destruct (Qlt_b 0 (entry_score (str_lower text) l 1)) eqn:Eq.
    + split; [tauto|]. split.
      * split; [discriminate|]. intros H0. pose proof (proj1 Hpos eq_refl). lia.
      * intros v Hv. injection Hv as <-. rewrite entry_score_count. ring.
    + split; [split; [intros [[]|H]; discriminate | intros H; apply Hpos in H; discriminate]|].
      split.
      * split; [intros _|reflexivity].
        destruct (List.length _) eqn:El; [reflexivity|].
        exfalso. assert (Hf : false = true) by (apply Hpos; lia). discriminate.
      * discriminate.
  - split; [split; [intros [[]|[]] | intros H; lia]|].
    split; [tauto|discriminate].
Qed.

(** C5 (counterexample): with a Pattern Table holding a malformed regex,
    construction still succeeds (the table is stored as raw strings), and it
    is the first assessment that fails, compiling the pattern and raising. *)
Lemma pattern_compile_at_init_cex :
  exists self e,
    CrisisDetectionSystem_init_with broken_patterns = Ok self /\
    assess_crisis_level self "أريد أن أموت" None 0 = Raise e.
Proof.
  eexists. eexists. split; [reflexivity|]. vm_compute. reflexivity.
Qed.

(** C5 (amended): patterns are kept as raw strings and compiled on every
    assessment call, never at construction: construction always succeeds
    and stores the table as given; if some pattern of the table does not
    compile, every assessment (for any text, session and time) raises and
    yields no result, so no broken pattern is skipped; if all compile, no
    assessment raises; and every pattern of the shipped table compiles. *)
Theorem pattern_compile_per_call (patterns : list (string * (CrisisType * Q))) :
  (exists self, CrisisDetectionSystem_init_with patterns = Ok self /\
     crisis_patterns self = patterns) /\
  (forall self p, CrisisDetectionSystem_init_with patterns = Ok self ->
     In p (map fst patterns) -> re_compile p = None ->
     forall h text sid now, exists e,
       assess_crisis_level (with_history self h) text sid now = Raise e) /\
  (forall self, CrisisDetectionSystem_init_with patterns = Ok self ->
     Forall (fun p => re_compile p.1 <> None) patterns ->
     forall h text sid now, exists r,
       assess_crisis_level (with_history self h) text sid now = Ok r) /\
  Forall (fun p => re_compile p.1 <> None) build_crisis_patterns.
Proof.
  split; [eexists; split; reflexivity|]. split; [|split].
  - intros self p Hi Hin Hc h text sid now. injection Hi as <-.
    destruct (check_crisis_patterns_from_raise patterns (str_lower text) empty_result p
                Hin Hc) as [e He].
    exists e. unfold assess_crisis_level. cbn [crisis_patterns with_history].
    unfold check_crisis_patterns. rewrite He. reflexivity.
  - intros self Hi Hc h text sid now. injection Hi as <-.
    destruct (check_crisis_patterns_from_compiles patterns (str_lower text) empty_result
                Hc) as [pat Hp].
    unfold assess_crisis_level. cbn [crisis_patterns with_history].
    unfold check_crisis_patterns. rewrite Hp.
    destruct sid as [sid|]; [destruct (String.eqb sid "")|];
      [| destruct (analyze_session_patterns _ _ _ _) |]; eexists; reflexivity.
  - exact build_crisis_patterns_compile.
Qed.

(** C7: the resolver over the shipped resources, for any detected types:
    every general emergency entry and every support entry is in the result;
    the mental-health and hospital entries are in it iff one of suicide,
    self_harm, severe_depression is detected; with violence detected the
    police contact is there; every entry of the result comes from one of
    the groups; and the merge ([dict.update]) never removes a key, a
    repeated key taking the last value. *)
Theorem get_relevant_resources_contents (crisis_types : list string) :
  let r := get_relevant_resources build_emergency_resources crisis_types in
  (forall k v, In (k, v) (res_emergency build_emergency_resources) ->
     dict_get r k = Some v) /\
  (forall k v, In (k, v) (res_support build_emergency_resources) ->
     dict_get r k = Some v) /\
  (mh_detected crisis_types ->
     forall k v, In (k, v) (res_mental_health build_emergency_resources
                            ++ res_hospitals build_emergency_resources) ->
     dict_get r k = Some v) /\
  (~ mh_detected crisis_types ->
     forall k v, In (k, v) (res_mental_health build_emergency_resources
                            ++ res_hospitals build_emergency_resources) ->
     dict_get r k = None) /\
  (In "violence" crisis_types ->
     dict_get r "police" = dict_get (res_emergency build_emergency_resources) "police") /\
  (forall k v, dict_get r k = Some v ->
     In (k, v) (res_emergency build_emergency_resources
                ++ res_mental_health build_emergency_resources
                ++ res_hospitals build_emergency_resources
                ++ res_support build_emergency_resources)) /\
  (forall (d e : list (string * string)) k,
     dict_has d k = true -> dict_has (dict_update d e) k = true) /\
  (forall (d : list (string * string)) k v, dict_get (dict_set d k v) k = Some v).
Proof.
  intros r. unfold r, get_relevant_resources.
  destruct (mh_reflect crisis_types) as [Hmh|Hmh];
    destruct (str_mem "violence" crisis_types);
    (split; [|split; [|split; [|split; [|split; [|split; [|split]]]]]]);
    try (intros; apply dict_get_set_eq);
    try (intros; apply dict_has_update; assumption);
    try (intros; vm_compute; reflexivity);
    try (intros Hc; exfalso; exact (Hc Hmh));
    try (intros Hc; contradiction);
    try (intros k v Hin; vm_compute in Hin;
         repeat (destruct Hin as [Hin|Hin];
                 [injection Hin as <- <-; vm_compute; reflexivity|]);
         contradiction);
    try (intros _ k v Hin; vm_compute in Hin;
         repeat (destruct Hin as [Hin|Hin];
                 [injection Hin as <- <-; vm_compute; reflexivity|]);
         contradiction);
    try (intros k v Hg; apply dict_get_In in Hg; vm_compute in Hg;
         repeat (destruct Hg as [Hg|Hg];
                 [injection Hg as <- <-; vm_compute;
                  repeat (first [left; reflexivity | right]) |]);
         contradiction).
Qed.

(** C8: with no session id, the assessment of a text by the engine of
    [__init__] does not depend on the stored sessions nor on the time: two
    calls with the same text give the same assessment, leave the engine as
    it was, and report a session risk of 0. *)
Theorem assess_no_session_deterministic (h1 h2 : gmap string (list SessionRecord))
  (text : string) (now1 now2 : Z) :
  exists a,
    assess_crisis_level (with_history engine0 h1) text None now1
      = Ok (a, with_history engine0 h1) /\
    assess_crisis_level (with_history engine0 h2) text None now2
      = Ok (a, with_history engine0 h2) /\
    session_pattern_risk a = 0.
Proof.
  destruct (engine_patterns_run engine0 (str_lower text) eq_refl) as [pat Hp].
  rewrite (assess_crisis_level_eq (with_history engine0 h1) text None now1 pat Hp).
  rewrite (assess_crisis_level_eq (with_history engine0 h2) text None now2 pat Hp).
  eexists. split; [reflexivity|]. split; reflexivity.
Qed.

(** C9: for every text, session and time, the resources returned by the
    engine of [__init__] hold "police": "999", and they are the same as
    if violence had not been detected. *)
Theorem police_always_present (h : gmap string (list SessionRecord)) (text : string)
  (sid : option string) (now : Z) :
  exists a self',
    assess_crisis_level (with_history engine0 h) text sid now = Ok (a, self') /\
    dict_get (emergency_resources_out a) "police" = Some "999" /\
    emergency_resources_out a
    = get_relevant_resources build_emergency_resources
        (List.filter (fun t => negb (String.eqb t "violence")) (detected_types a)).
Proof.
  destruct (engine_patterns_run engine0 (str_lower text) eq_refl) as [pat Hp].
  rewrite (assess_crisis_level_eq (with_history engine0 h) text sid now pat Hp).
  eexists. eexists. split; [reflexivity|].
  cbn [emergency_resources_out detected_types emergency_resources with_history engine0].
  split; [apply resources_police | apply resources_ignore_violence].
Qed.

(** ** Instances of the theorems with hypotheses *)

Lemma calculate_combined_score_spec_witness :
  let t := str_lower "أريد أن أموت، سأقتل نفسي" in
  exists pat,
    check_crisis_patterns build_crisis_patterns t = Ok pat /\
    let kw := check_crisis_keywords build_crisis_keywords t in
    let dia := check_omani_expressions build_omani_crisis_expressions t in
    fs_total (calculate_combined_score kw pat dia)
    == fold_right Qplus 0
         (map (spec_combined kw pat dia) (fs_types (calculate_combined_score kw pat dia))).
Proof.
  intros t. destruct (engine0_channels_ok t) as (Hk & Hd & Hp).
  destruct (check_crisis_patterns build_crisis_patterns t) as [pat|e] eqn:Ep;
    [|vm_compute in Ep; discriminate].
  exists pat. split; [reflexivity|].
  exact (proj2 (proj2 (proj2 (proj2 (proj2
           (calculate_combined_score_spec _ pat _ Hk (Hp pat eq_refl) Hd)))))).
Defined.

Lemma session_pattern_risk_rules_witness :
  let self := with_history engine0
                (<["s" := [{| rec_timestamp := 0; rec_score := 1 # 10; rec_types := [] |};
                           {| rec_timestamp := 1; rec_score := 1 # 5; rec_types := [] |}]]> ∅) in
  exists a self',
    assess_crisis_level self "انتحار" (Some "s") 2 = Ok (a, self') /\
    session_pattern_risk a = 1 # 2.
Proof.
  intros self.
  destruct (assess_crisis_level self "انتحار" (Some "s") 2) as [[a s']|e] eqn:H;
    [|vm_compute in H; discriminate].
  exists a, s'. split; [reflexivity|].
  destruct (session_pattern_risk_rules self "انتحار" "s" 2 a s' ltac:(discriminate) H)
    as (_ & Hesc & _).
  apply Hesc. vm_compute in H. injection H as <- _.
  apply (reflect_iff _ _ (escalating_reflect _)). vm_compute. reflexivity.
Defined.

Lemma session_history_bounded_witness :
  exists self',
    run_turns engine0 (repeat ("انتحار", Some "s", 0%Z) 12) = Ok self' /\
    histories_bounded (session_history self') /\
    option_map (@List.length SessionRecord) (session_history self' !! "s") = Some 10%nat.
Proof.
  destruct (run_turns engine0 (repeat ("انتحار", Some "s", 0%Z) 12)) as [s'|e] eqn:H;
    [|vm_compute in H; discriminate].
  exists s'. split; [reflexivity|]. split.
  - apply (session_history_bounded engine0 (repeat ("انتحار", Some "s", 0%Z) 12) s');
      [|exact H].
    intros sid h Hk. vm_compute in Hk. discriminate.
  - vm_compute in H. injection H as <-. vm_compute. reflexivity.
Defined.

Lemma pattern_compile_per_call_witness :
  exists self,
    CrisisDetectionSystem_init_with broken_patterns = Ok self /\
    exists e, assess_crisis_level (with_history self ∅) "انتحار" (Some "s") 0 = Raise e.
Proof.
  eexists. split; [reflexivity|].
  apply (proj1 (proj2 (pattern_compile_per_call broken_patterns)) _ "(أريد|بدي");
    [reflexivity | simpl; left; reflexivity | vm_compute; reflexivity].
Defined.

Lemma get_relevant_resources_contents_witness :
  dict_get (get_relevant_resources build_emergency_resources ["violence"]) "police"
  = dict_get (res_emergency build_emergency_resources) "police".
Proof.
  apply (proj1 (proj2 (proj2 (proj2 (proj2
           (get_relevant_resources_contents ["violence"])))))).
  simpl. left. reflexivity.
Defined.

(** ** Further properties of the engine *)

Lemma generate_crisis_response_level (a : Assessment) (l : CrisisLevel) :
  crisis_level a = CrisisLevel_value l ->
  generate_crisis_response a
  = match l with
    | CRITICAL => generate_critical_response (detected_types a)
    | HIGH => high_message
    | MEDIUM => medium_message
    | LOW => low_message
    end.
Proof.
  intros H. unfold generate_crisis_response. rewrite H. destruct l; reflexivity.
Qed.

(** The response to an assessment of the engine of [__init__] gives the
    emergency number 999 exactly when the assessment requires immediate
    intervention (level critical), and the number of the Sultan Qaboos
    hospital exactly when, moreover, suicide is among the detected types. *)
Theorem crisis_response_emergency_number (h : gmap string (list SessionRecord))
  (text : string) (sid : option string) (now : Z) :
  exists a self',
    assess_crisis_level (with_history engine0 h) text sid now = Ok (a, self') /\
    str_contains "999" (generate_crisis_response a) = requires_immediate_intervention a /\
    str_contains "24211411" (generate_crisis_response a)
    = requires_immediate_intervention a && str_mem "suicide" (detected_types a).
Proof.
  destruct (engine_patterns_run engine0 (str_lower text) eq_refl) as [pat Hp].
  rewrite (assess_crisis_level_eq (with_history engine0 h) text sid now pat Hp).
  eexists. eexists. split; [reflexivity|].
  set (cs := calculate_combined_score _ _ _).
  rewrite (generate_crisis_response_level _ (determine_crisis_level cs)) by reflexivity.
  cbn [requires_immediate_intervention detected_types].
  generalize (fs_types cs) as ty. generalize (determine_crisis_level cs) as l.
  intros l ty. destruct l; cbn [CrisisLevel_eqb orb andb];
    [split; vm_compute; reflexivity .. |].
  unfold generate_critical_response.
  destruct (str_mem "suicide" ty); [|destruct (str_mem "violence" ty)];
    vm_compute; split; reflexivity.
Qed.

Lemma level_ge_critical (cs : FusedScore) :
  (3 <= level_rank (determine_crisis_level cs))%nat <->
  critical_cond (fs_total cs) (fs_types cs).
Proof.
  unfold determine_crisis_level, critical_cond. cbv zeta.
  repeat match goal with
         | |- context [Qle_bool ?x ?y] => destruct (Qle_reflect x y)
         | |- context [str_mem ?x ?y] => destruct (mem_reflect x y)
         end; cbn [andb orb level_rank];
    split; intro; first [lia | tauto | exfalso; tauto].
Qed.

Lemma level_ge_high (cs : FusedScore) :
  (2 <= level_rank (determine_crisis_level cs))%nat <->
  high_cond (fs_total cs) (fs_types cs).
Proof.
  unfold determine_crisis_level, high_cond, critical_cond. cbv zeta.
  repeat match goal with
         | |- context [Qle_bool ?x ?y] => destruct (Qle_reflect x y)
         | |- context [str_mem ?x ?y] => destruct (mem_reflect x y)
         end; cbn [andb orb level_rank];
    split; intro; first [lia | tauto | exfalso; tauto].
Qed.

Lemma level_ge_medium (cs : FusedScore) :
  (1 <= level_rank (determine_crisis_level cs))%nat <->
  medium_cond (fs_total cs) (fs_types cs).
Proof.
  unfold determine_crisis_level, medium_cond, high_cond, critical_cond. cbv zeta.
  repeat match goal with
         | |- context [Qle_bool ?x ?y] => destruct (Qle_reflect x y)
         | |- context [str_mem ?x ?y] => destruct (mem_reflect x y)
         end; cbn [andb orb level_rank];
    split; intro; first [lia | tauto | exfalso; tauto].
Qed.

Lemma critical_cond_mono t1 t2 d1 d2 :
  (forall x, In x d1 -> In x d2) -> t1 <= t2 ->
  critical_cond t1 d1 -> critical_cond t2 d2.
Proof.
  intros Hs Ht [H|[[Hx H]|[Hx H]]].
  - left. lra.
  - right. left. split; [apply Hs; exact Hx | lra].
  - right. right. split; [apply Hs; exact Hx | lra].
Qed.

Lemma high_cond_mono t1 t2 d1 d2 :
  (forall x, In x d1 -> In x d2) -> t1 <= t2 ->
  high_cond t1 d1 -> high_cond t2 d2.
Proof.
  intros Hs Ht [H|[H|[Hx H]]].
  - left. exact (critical_cond_mono t1 t2 d1 d2 Hs Ht H).
  - right. left. lra.
  - right. right. split; [destruct Hx as [Hx|Hx]; [left|right]; apply Hs; exact Hx | lra].
Qed.

Lemma medium_cond_mono t1 t2 d1 d2 :
  (forall x, In x d1 -> In x d2) -> t1 <= t2 ->
  medium_cond t1 d1 -> medium_cond t2 d2.
Proof.
  intros Hs Ht [H|[H|[Hx H]]].
  - left. exact (high_cond_mono t1 t2 d1 d2 Hs Ht H).
  - right. left. lra.
  - right. right. split; [apply Hs; exact Hx | lra].
Qed.

(** The level classifier is monotone: a fused result with a larger (or
    equal) total and at least the same detected types never gets a lower
    level. *)
Theorem determine_crisis_level_monotone (cs1 cs2 : FusedScore) :
  (forall t, In t (fs_types cs1) -> In t (fs_types cs2)) ->
  fs_total cs1 <= fs_total cs2 ->
  (level_rank (determine_crisis_level cs1) <= level_rank (determine_crisis_level cs2))%nat.
Proof.
  intros Hs Ht.
  assert (Hr : (level_rank (determine_crisis_level cs1) <= 3)%nat)
    by (destruct (determine_crisis_level cs1); cbn; lia).
  destruct (level_rank (determine_crisis_level cs1)) as [|[|[|[|r]]]] eqn:E.
  - lia.
  - apply level_ge_medium. apply (medium_cond_mono _ _ _ _ Hs Ht).
    apply level_ge_medium. rewrite E. lia.
  - apply level_ge_high. apply (high_cond_mono _ _ _ _ Hs Ht).
    apply level_ge_high. rewrite E. lia.
  - apply level_ge_critical. apply (critical_cond_mono _ _ _ _ Hs Ht).
    apply level_ge_critical. rewrite E. lia.
  - lia.
Qed.

(** One assessment changes nothing but the history of its own session:
    the tables and resources are kept, and every other session's history
    (all of them when the id is absent) is left as it was. *)
Theorem assess_crisis_level_frame (self : CrisisDetectionSystem) (text : string)
  (sid : option string) (now : Z) (a : Assessment) (self' : CrisisDetectionSystem) :
  assess_crisis_level self text sid now = Ok (a, self') ->
  crisis_keywords self' = crisis_keywords self /\
  crisis_patterns self' = crisis_patterns self /\
  omani_crisis_expressions self' = omani_crisis_expressions self /\
  emergency_resources self' = emergency_resources self /\
  (forall k, sid <> Some k -> session_history self' !! k = session_history self !! k).
Proof.
  intros H.
  destruct (check_crisis_patterns (crisis_patterns self) (str_lower text)) as [pat|e]
    eqn:Hp.
  2:{ unfold assess_crisis_level in H. rewrite Hp in H. discriminate. }
  rewrite (assess_crisis_level_eq self text sid now pat Hp) in H.
  injection H as _ <-. cbn [with_history crisis_keywords crisis_patterns
    omani_crisis_expressions emergency_resources session_history].
  split; [reflexivity|]. split; [reflexivity|]. split; [reflexivity|].
  split; [reflexivity|]. intros k Hk.
  destruct sid as [s|]; [destruct (String.eqb s "")|]; cbn [snd]; try reflexivity.
  rewrite (proj1 (analyze_session_patterns_spec _ _ _ _)).
  apply lookup_insert_ne. congruence.
Qed.







(** The dialect channel, for every text and type: the type is reported iff
    at least one expression of its list occurs in the lowercased text, and
    its score is 1.2 times the number of distinct expressions that occur
    (an expression found several times counts once). *)
Theorem dialect_score_distinct_expressions (text : string) (t : CrisisType) :
  let exprs := match table_lookup build_omani_crisis_expressions (CrisisType_value t) with
               | Some l => l | None => [] end in
  let n := List.length
             (List.filter (fun e => str_contains (str_lower e) (str_lower text)) exprs) in
  let res := check_omani_expressions build_omani_crisis_expressions (str_lower text) in
  (In (CrisisType_value t) (cr_types res) <-> (0 < n)%nat) /\
  (dict_get (cr_scores res) (CrisisType_value t) = None <-> n = 0%nat) /\
  (forall v, dict_get (cr_scores res) (CrisisType_value t) = Some v ->
     v == (6 # 5) * inject_Z (Z.of_nat n)).
Proof.
  intros exprs n res.
  assert (Hnd : NoDup (map (fun e => CrisisType_value e.1) build_omani_crisis_expressions))
    by (apply build_tables_types_NoDup).
  assert (Hpos : forall l, Qlt_b 0 (entry_score (str_lower text) l (6 # 5)) = true <->
            (0 < List.length (List.filter
                   (fun e => str_contains (str_lower e) (str_lower text)) l))%nat).
  { intros l. rewrite Qlt_b_iff, entry_score_count.
    set (z := Z.of_nat _).
    change ((6 # 5) * inject_Z z) with ((6 * z) # 5).
    unfold Qlt. cbn [Qnum Qden]. unfold z. clear z.
    generalize (List.length (List.filter
                  (fun e => str_contains (str_lower e) (str_lower text)) l)) as m.
    intros m. split; intros; lia. }
  unfold res, check_omani_expressions, check_entries.
  rewrite check_entries_fold_types by exact Hnd.
  rewrite check_entries_fold_get by exact Hnd.
  cbn [cr_types cr_scores empty_result dict_get].
  unfold n; unfold exprs.
  destruct (table_lookup build_omani_crisis_expressions (CrisisType_value t)) as [l|]; simpl.
  - specialize (Hpos l).
    destruct (Qlt_b 0 (entry_score (str_lower text) l (6 # 5))) eqn:Eq.
    + split; [tauto|]. split.
      * split; [discriminate|]. intros H0. pose proof (proj1 Hpos eq_refl). lia.
      * intros v Hv. injection Hv as <-. rewrite entry_score_count. reflexivity.
    + split; [split; [intros [[]|H]; discriminate | intros H; apply Hpos in H; discriminate]|].
      split.
      * split; [intros _|reflexivity].
        destruct (List.length _) eqn:El; [reflexivity|].
        exfalso. assert (Hf : false = true) by (apply Hpos; lia). discriminate.
      * discriminate.
  - split; [split; [intros [[]|[]] | intros H; lia]|].
    split; [tauto|discriminate].
Qed.




Lemma str_prefix_contains (a s : string) :
  str_prefix a s = true -> str_contains a s = true.
Proof. intros H. destruct s; simpl; rewrite H; reflexivity. Qed.

Lemma str_contains_cons (a s : string) (c : ascii) :
  str_contains a s = true -> str_contains a (String c s) = true.
Proof. intros H. simpl. rewrite H. apply orb_true_r. Qed.

Lemma str_contains_drop (a s : string) (n : nat) :
  str_contains a (str_drop n s) = true -> str_contains a s = true.
Proof.
  revert s. induction n as [|n IH]; intros s H; [exact H|].
  destruct s as [|c s]; [exact H|]. simpl in H. apply str_contains_cons, IH, H.
Qed.

Lemma first_alt_spec (alts : list string) (s b : string) :
  first_alt alts s = Some b -> In b alts /\ str_prefix b s = true.
Proof.
  induction alts as [|a alts IH]; simpl; [discriminate|].
  destruct (str_prefix a s) eqn:E.
  - intros H. injection H as <-. split; [left; reflexivity | exact E].
  - intros H. destruct (IH H) as [Hi Hp]. split; [right; exact Hi | exact Hp].
Qed.

Lemma match_tail_spec (r : list string) (rest : string) (k n : nat) :
  match_tail r rest k = Some n -> exists b, In b r /\ str_contains b rest = true.
Proof.
  induction k as [|k IH]; cbn [match_tail].
  - destruct (first_alt r (str_drop 0 rest)) as [b|] eqn:E; [|discriminate].
    intros _. apply first_alt_spec in E as [Hi Hp]. exists b.
    split; [exact Hi | apply str_prefix_contains; exact Hp].
  - destruct (first_alt r (str_drop (S k) rest)) as [b|] eqn:E; [|exact IH].
    intros _. apply first_alt_spec in E as [Hi Hp]. exists b.
    split; [exact Hi|]. apply (str_contains_drop _ _ (S k)).
    apply str_prefix_contains; exact Hp.
Qed.

Lemma match_head_spec (l r : list string) (s : string) (n : nat) :
  match_head l r s = Some n ->
  exists a b, In a l /\ In b r /\ str_contains a s = true /\ str_contains b s = true.
Proof.
  induction l as [|a l IH]; simpl; [discriminate|].
  intros H. destruct (str_prefix a s) eqn:Ea.
  - destruct (match_tail r (str_drop (String.length a) s)
                (line_len (str_drop (String.length a) s))) as [m|] eqn:Et.
    + apply match_tail_spec in Et as (b & Hb & Hc). exists a, b.
      split; [left; reflexivity|]. split; [exact Hb|].
      split; [apply str_prefix_contains; exact Ea|].
      apply (str_contains_drop _ _ _ Hc).
    + destruct (IH H) as (a' & b & Ha & Hb & Hca & Hcb).
      exists a', b. split; [right; exact Ha | tauto].
  - destruct (IH H) as (a' & b & Ha & Hb & Hca & Hcb).
    exists a', b. split; [right; exact Ha | tauto].
Qed.

Lemma findall_from_spec (rx : Regex) (fuel : nat) (s : string) :
  (0 < findall_from rx fuel s)%nat ->
  exists a b, In a (re_left rx) /\ In b (re_right rx) /\
              str_contains a s = true /\ str_contains b s = true.
Proof.
  revert s. induction fuel as [|f IH]; intros s H; simpl in H; [lia|].
  destruct s as [|c s']; [lia|].
  destruct (match_head (re_left rx) (re_right rx) (String c s')) as [n|] eqn:Em.
  - exact (match_head_spec _ _ _ _ Em).
  - destruct (IH s' H) as (a & b & Ha & Hb & Hca & Hcb).
    exists a, b. split; [exact Ha|]. split; [exact Hb|].
    split; apply str_contains_cons; assumption.
Qed.

(** A pattern [(A1|...|An).*(B1|...|Bm)] finds a match in a text only if
    the text contains one of the words of the first group and one of the
    words of the second. *)
Theorem re_findall_count_needs_both_groups (rx : Regex) (s : string) :
  (0 < re_findall_count rx s)%nat ->
  exists a b, In a (re_left rx) /\ In b (re_right rx) /\
              str_contains a s = true /\ str_contains b s = true.
Proof. apply findall_from_spec. Qed.

Lemma with_history_twice (self : CrisisDetectionSystem) h h' :
  with_history (with_history self h) h' = with_history self h'.
Proof. reflexivity. Qed.

(** Over any number of turns of one session (a non-empty id) on the engine
    of [__init__], starting from at most 10 stored records, no turn fails
    and the session ends with min(previous records + turns, 10) records. *)
Theorem session_history_length_run (h : gmap string (list SessionRecord)) (sid : string)
  (turns : list (string * Z)) :
  sid <> "" ->
  (List.length (history_of h sid) <= 10)%nat ->
  exists self',
    run_turns (with_history engine0 h) (map (fun tn => (tn.1, Some sid, tn.2)) turns)
      = Ok self' /\
    List.length (history_of (session_history self') sid)
    = Nat.min (List.length (history_of h sid) + List.length turns) 10.
Proof.
  intros Hsid. apply String.eqb_neq in Hsid. revert h.
  induction turns as [|[text now] turns IH]; intros h Hle.
  - exists (with_history engine0 h). split; [reflexivity|]. cbn [session_history with_history].
    simpl List.length. lia.
  - cbn [run_turns map fst snd].
    destruct (engine_patterns_run engine0 (str_lower text) eq_refl) as [pat Hp].
    rewrite (assess_crisis_level_eq (with_history engine0 h) text (Some sid) now pat Hp).
    rewrite Hsid. cbn [snd session_history with_history].
    rewrite with_history_twice.
    set (step := analyze_session_patterns h sid _ now).
    assert (Hlen : List.length (history_of step.2 sid)
                   = Nat.min 10 (List.length (history_of h sid) + 1)).
    { unfold step. rewrite (proj1 (analyze_session_patterns_spec _ _ _ _)).
      unfold history_of at 1. rewrite lookup_insert_eq, py_tail_length, length_app.
      unfold history_of. simpl. reflexivity. }
    destruct (IH step.2 ltac:(lia)) as (self' & Hrun & Hl).
    exists self'. split; [exact Hrun|]. rewrite Hl, Hlen. simpl List.length. lia.
Qed.

(** The first assessed turn of a session id with no stored history gets
    session risk 0: one record can show neither an escalating trend nor
    repeated high scores. *)
Theorem first_turn_session_risk (self : CrisisDetectionSystem) (text sid : string)
  (now : Z) (a : Assessment) (self' : CrisisDetectionSystem) :
  sid <> "" -> session_history self !! sid = None ->
  assess_crisis_level self text (Some sid) now = Ok (a, self') ->
  session_pattern_risk a = 0.
Proof.
  intros Hsid Hnone H.
  destruct (check_crisis_patterns (crisis_patterns self) (str_lower text)) as [pat|e]
    eqn:Hp.
  2:{ unfold assess_crisis_level in H. rewrite Hp in H. discriminate. }
  rewrite (assess_crisis_level_eq self text (Some sid) now pat Hp) in H.
  apply String.eqb_neq in Hsid. rewrite Hsid in H.
  injection H as <- _. cbn [session_pattern_risk].
  set (cs := calculate_combined_score _ _ _). clearbody cs.
  unfold analyze_session_patterns. rewrite Hnone. simpl.
  unfold crisis_count. simpl. destruct (Qlt_b 1 (fs_total cs)); reflexivity.
Qed.

(** The empty text: every lookup misses, so the assessment (for any stored
    sessions, session id and time) is level low with score 0, no detected
    type and no escalation; it gets the low response and the base resources
    (emergency and support contacts). *)
Theorem assess_empty_text (h : gmap string (list SessionRecord)) (sid : option string)
  (now : Z) :
  exists a self',
    assess_crisis_level (with_history engine0 h) "" sid now = Ok (a, self') /\
    crisis_level a = "low" /\ crisis_score a == 0 /\ detected_types a = [] /\
    requires_escalation a = false /\
    emergency_resources_out a = get_relevant_resources build_emergency_resources [] /\
    generate_crisis_response a = low_message.
Proof.
  destruct (engine_patterns_run engine0 (str_lower "") eq_refl) as [pat Hp].
  pose proof Hp as Hp'. vm_compute in Hp'. injection Hp' as Hpat. subst pat.
  rewrite (assess_crisis_level_eq (with_history engine0 h) "" sid now _ Hp).
  eexists. eexists. split; [reflexivity|].
  rewrite (generate_crisis_response_level _ LOW)
    by (cbn [crisis_level]; vm_compute; reflexivity).
  cbn [crisis_level crisis_score detected_types requires_escalation
       emergency_resources_out].
  split; [vm_compute; reflexivity|]. split; [vm_compute; reflexivity|].
  split; [vm_compute; reflexivity|]. split; [vm_compute; reflexivity|].
  split; [vm_compute; reflexivity | reflexivity].
Qed.

Lemma fused_total (kw pat dia : ChannelResult) :
  channel_ok kw -> channel_ok pat -> channel_ok dia ->
  let cs := calculate_combined_score kw pat dia in
  fs_total cs == fold_right Qplus 0 (map (spec_combined kw pat dia) (fs_types cs)) /\
  (forall t, In t (fs_types cs) -> 0 < spec_combined kw pat dia t).
Proof.
  intros Hk Hp Hd cs. unfold cs. rewrite calculate_combined_score_shape.
  cbn [fs_types fs_total]. split.
  - unfold sum_values. rewrite map_map. simpl.
    rewrite fold_Qplus. rewrite sum_map_Qeq with (g := spec_combined kw pat dia)
      by apply combined_of_spec. ring.
  - intros t Ht. rewrite !set_update_In in Ht. simpl in Ht.
    pose proof (dict_get0_nonneg kw t Hk). pose proof (dict_get0_nonneg pat t Hp).
    pose proof (dict_get0_nonneg dia t Hd). unfold spec_combined.
    destruct Ht as [[[[]|Hx]|Hx]|Hx].
    + pose proof (dict_get0_pos kw t Hk Hx). lra.
    + pose proof (dict_get0_pos pat t Hp Hx). lra.
    + pose proof (dict_get0_pos dia t Hd Hx). lra.
Qed.

Lemma sum_positive (f : string -> Q) (l : list string) :
  (forall t, In t l -> 0 < f t) ->
  0 <= fold_right Qplus 0 (map f l) /\ (l <> [] -> 0 < fold_right Qplus 0 (map f l)).
Proof.
  induction l as [|t l IH]; intros H; simpl.
  - split; [lra | congruence].
  - assert (Ht : 0 < f t) by (apply H; left; reflexivity).
    destruct IH as [IH _]; [intros x Hx; apply H; right; exact Hx|].
    split; [lra | intros _; lra].
Qed.

(** For every text, session and time, the total score of the engine of
    [__init__] is non-negative; it is 0 exactly when no type is detected,
    and then the level is low. *)
Theorem assess_score_sign (h : gmap string (list SessionRecord)) (text : string)
  (sid : option string) (now : Z) :
  exists a self',
    assess_crisis_level (with_history engine0 h) text sid now = Ok (a, self') /\
    0 <= crisis_score a /\
    (detected_types a = [] <-> crisis_score a == 0) /\
    (detected_types a = [] -> crisis_level a = "low").
Proof.
  destruct (engine0_channels_ok (str_lower text)) as (Hk & Hd & Hpc).
  destruct (engine_patterns_run engine0 (str_lower text) eq_refl) as [pat Hp].
  pose proof (Hpc pat Hp) as Hpat.
  destruct (fused_total _ _ _ Hk Hpat Hd) as [Htot Hpos].
  rewrite (assess_crisis_level_eq (with_history engine0 h) text sid now pat Hp).
  eexists. eexists. split; [reflexivity|].
  cbn [crisis_level crisis_score detected_types].
  change (crisis_keywords (with_history engine0 h)) with build_crisis_keywords.
  change (omani_crisis_expressions (with_history engine0 h))
    with build_omani_crisis_expressions.
  set (cs := calculate_combined_score _ _ _) in *. clearbody cs.
  destruct (sum_positive _ _ Hpos) as [Hnn Hnz].
  split; [rewrite Htot; exact Hnn|].
  assert (Hzero : fs_types cs = [] -> fs_total cs == 0)
    by (intros He; rewrite Htot, He; reflexivity).
  split; [split|].
  - exact Hzero.
  - intros Hz. destruct (fs_types cs) as [|t l] eqn:E; [reflexivity|].
    exfalso. assert (Hlt : 0 < fs_total cs) by (rewrite Htot; apply Hnz; discriminate).
    lra.
  - intros He. pose proof (Hzero He) as Hz.
    unfold determine_crisis_level. cbv zeta. rewrite He. cbn [str_mem existsb andb orb].
    repeat match goal with
           | |- context [Qle_bool ?x ?y] => destruct (Qle_reflect x y); [lra|]
           end.
    reflexivity.
Qed.

Lemma determine_crisis_level_monotone_witness :
  let cs1 := {| fs_types := ["suicide"]; fs_scores := [("suicide", 1)]; fs_total := 1 |} in
  let cs2 := {| fs_types := ["suicide"; "violence"];
                fs_scores := [("suicide", 1); ("violence", 1)]; fs_total := 2 |} in
  (level_rank (determine_crisis_level cs1) <= level_rank (determine_crisis_level cs2))%nat.
Proof.
  intros cs1 cs2. apply determine_crisis_level_monotone.
  - intros t Ht. simpl in *. tauto.
  - unfold Qle. simpl. lia.
Defined.

Lemma assess_crisis_level_frame_witness :
  exists a self',
    assess_crisis_level engine0 "أريد أن أموت" (Some "s") 0 = Ok (a, self') /\
    session_history self' !! "t" = session_history engine0 !! "t".
Proof.
  destruct (assess_crisis_level engine0 "أريد أن أموت" (Some "s") 0) as [[a s']|e] eqn:H;
    [|vm_compute in H; discriminate].
  exists a, s'. split; [reflexivity|].
  apply (assess_crisis_level_frame engine0 "أريد أن أموت" (Some "s") 0 a s' H).
  discriminate.
Defined.


Lemma re_findall_count_needs_both_groups_witness :
  exists a b, In a ["أريد"] /\ In b ["أموت"] /\
              str_contains a "أريد أن أموت" = true /\ str_contains b "أريد أن أموت" = true.
Proof.
  apply (re_findall_count_needs_both_groups {| re_left := ["أريد"]; re_right := ["أموت"] |}).
  apply Nat.ltb_lt. vm_compute. reflexivity.
Defined.

Lemma session_history_length_run_witness :
  exists self',
    run_turns (with_history engine0 ∅)
      (map (fun tn => (tn.1, Some "s", tn.2)) [("انتحار", 0%Z); ("", 1%Z)]) = Ok self' /\
    List.length (history_of (session_history self') "s") = 2%nat.
Proof.
  destruct (session_history_length_run ∅ "s" [("انتحار", 0%Z); ("", 1%Z)])
    as (self' & Hrun & Hlen); [discriminate | vm_compute; lia |].
  exists self'. split; [exact Hrun|]. rewrite Hlen. vm_compute. reflexivity.
Defined.

Lemma first_turn_session_risk_witness :
  exists a self',
    assess_crisis_level engine0 "أريد أن أموت" (Some "s") 0 = Ok (a, self') /\
    session_pattern_risk a = 0.
Proof.
  destruct (assess_crisis_level engine0 "أريد أن أموت" (Some "s") 0) as [[a s']|e] eqn:H;
    [|vm_compute in H; discriminate].
  exists a, s'. split; [reflexivity|].
  apply (first_turn_session_risk engine0 "أريد أن أموت" "s" 0 a s');
    [discriminate | vm_compute; reflexivity | exact H].
Defined.
